(** * jsonl_to_sqlite: the Wiktionary JSONL to SQLite converter

    A shallow embedding of [scripts/jsonl_to_sqlite.py] and the properties
    of its extraction and loading pipeline.

    Conventions of the embedding.
    - A decoded JSON document is a Python object: [None], a [bool], an
      [int], a [float], a [str], a [list] or a [dict] with string keys.
    - Python integers are unbounded: they are [Z].  Python floats are
      binary64: they are the primitive [float].
    - A Python [str] is a [string], one character per code point (the
      embedding covers code points below 256).
    - A [dict] keeps insertion order: it is an association list, looked
      up from the front.
    - Python exceptions that the script does not catch end the run; they
      are the [Raise] results of the [result] monad.
    - The connection is the content of the three tables (rows in insertion
      order) with the number of commits; failures of the storage engine
      itself are outside the model. *)

From Stdlib Require Import ZArith List String Ascii Bool Lia PrimFloat.
Import ListNotations.

Set Warnings "-register-all".

Local Open Scope string_scope.
Local Open Scope list_scope.
Local Open Scope Z_scope.

(* ================================================================== *)
(** ** Python exceptions and the [result] monad *)

Inductive exn : Type :=
| AttributeError
| TypeError
| KeyError
| IndexError.

Inductive result (A : Type) : Type :=
| Ok (a : A)
| Raise (e : exn).

Arguments Ok {A} a.
Arguments Raise {A} e.

Definition bind {A B : Type} (m : result A) (k : A -> result B) : result B :=
  match m with
  | Ok a => k a
  | Raise e => Raise e
  end.

Declare Scope py_scope.
Delimit Scope py_scope with py.
Notation "x <- m ;; k" := (bind m (fun x => k))
  (at level 100, m at next level, right associativity) : py_scope.
Local Open Scope py_scope.

(* ================================================================== *)
(** ** Python objects produced by [json.loads] *)

Inductive pyval : Type :=
| PNone
| PBool (b : bool)
| PInt (z : Z)
| PFloat (f : float)
| PStr (s : string)
| PList (l : list pyval)
| PDict (kv : list (string * pyval)).

(** [bool(v)]: the truth value Python gives an object in [if v], [not v]
    and [a or b]. *)
Definition truthy (v : pyval) : bool :=
  match v with
  | PNone => false
  | PBool b => b
  | PInt z => negb (z =? 0)
  | PFloat f => negb (PrimFloat.eqb f PrimFloat.zero)
  | PStr s => negb (s =? "")%string
  | PList l => match l with [] => false | _ :: _ => true end
  | PDict kv => match kv with [] => false | _ :: _ => true end
  end.

(** Lookup of a key in the association list of a [dict]. *)
Fixpoint lookup (k : string) (kv : list (string * pyval)) : option pyval :=
  match kv with
  | [] => None
  | (k', v) :: rest => if (k' =? k)%string then Some v else lookup k rest
  end.

(** [v.get(k, d)]: only a [dict] has the method. *)
Definition py_get (v : pyval) (k : string) (d : pyval) : result pyval :=
  match v with
  | PDict kv => Ok (match lookup k kv with Some x => x | None => d end)
  | _ => Raise AttributeError
  end.

(** [v == s] for a string [s]: an object of another type is never equal
    to a [str]. *)
Definition py_eq_str (v : pyval) (s : string) : bool :=
  match v with
  | PStr s' => (s' =? s)%string
  | _ => false
  end.

(** [k in v] for a string [k]: key of a [dict], element of a [list],
    substring of a [str]. *)
Definition py_in (k : string) (v : pyval) : result bool :=
  match v with
  | PDict kv => Ok (match lookup k kv with Some _ => true | None => false end)
  | PList l => Ok (existsb (fun x => py_eq_str x k) l)
  | PStr s => Ok (match index 0 k s with Some _ => true | None => false end)
  | _ => Raise TypeError
  end.

(** [v[k]] for a string [k]. *)
Definition py_getitem (v : pyval) (k : string) : result pyval :=
  match v with
  | PDict kv => match lookup k kv with Some x => Ok x | None => Raise KeyError end
  | _ => Raise TypeError
  end.

(** [v[0]]. *)
Definition py_first (v : pyval) : result pyval :=
  match v with
  | PList (x :: _) => Ok x
  | PList [] => Raise IndexError
  | PStr (String c _) => Ok (PStr (String c ""))
  | PStr EmptyString => Raise IndexError
  | PDict _ => Raise KeyError
  | _ => Raise TypeError
  end.

Fixpoint chars (s : string) : list pyval :=
  match s with
  | EmptyString => []
  | String c rest => PStr (String c "") :: chars rest
  end.

(** The elements [for x in v] goes through. *)
Definition py_iter (v : pyval) : result (list pyval) :=
  match v with
  | PList l => Ok l
  | PStr s => Ok (chars s)
  | PDict kv => Ok (map (fun p => PStr (fst p)) kv)
  | _ => Raise TypeError
  end.

(** [v in l] for a list [l] of strings. *)
Definition py_in_strs (v : pyval) (l : list string) : bool :=
  existsb (py_eq_str v) l.

(* ================================================================== *)
(** ** Module constants *)

Definition TARGET_TRANSLATIONS : list (string * list string) :=
  [ ("en", ["es"]);
    ("es", ["en"]) ].

Definition BATCH_SIZE : Z := 10000.

Fixpoint assoc_get {A : Type} (k : string) (d : A) (t : list (string * A)) : A :=
  match t with
  | [] => d
  | (k', v) :: rest => if (k' =? k)%string then v else assoc_get k d rest
  end.

(* ================================================================== *)
(** ** [process_entry] *)

(** The dict appended to [relevant_translations]. *)
Record translation : Type := mkTranslation {
  target_lang : pyval;
  target_word : pyval;
  roman : pyval
}.

(** The tuple [process_entry] returns. *)
Record extracted : Type := mkExtracted {
  ex_word : pyval;
  ex_pos : pyval;
  ex_senses_data : list (pyval * list translation);
  ex_etymology_text : pyval;
  ex_translations : list translation
}.

(** The loop [for sense in senses]. *)
Fixpoint senses_loop (senses : list pyval)
    (senses_data : list (pyval * list translation))
  : result (list (pyval * list translation)) :=
  match senses with
  | [] => Ok senses_data
  | sense :: rest =>
      glosses <- py_get sense "glosses" (PList []) ;;
      if truthy glosses then
        gloss <- py_first glosses ;;
        senses_loop rest (senses_data ++ [(gloss, [])])
      else senses_loop rest senses_data
  end.

(** The loop [for trans in translations]. *)
Fixpoint translations_loop (target_langs : list string) (translations : list pyval)
    (relevant_translations : list translation) : result (list translation) :=
  match translations with
  | [] => Ok relevant_translations
  | trans :: rest =>
      code1 <- py_get trans "lang_code" PNone ;;
      trans_lang <- (if truthy code1 then Ok code1
                     else py_get trans "code" (PStr "")) ;;
      if py_in_strs trans_lang target_langs then
        trans_word <- py_get trans "word" (PStr "") ;;
        if truthy trans_word then
          r <- py_get trans "roman" PNone ;;
          translations_loop target_langs rest
            (relevant_translations ++ [mkTranslation trans_lang trans_word r])
        else translations_loop target_langs rest relevant_translations
      else translations_loop target_langs rest relevant_translations
  end.

(** The etymology, in either of its two formats. *)
Definition resolve_etymology (entry : pyval) : result pyval :=
  has_text <- py_in "etymology_text" entry ;;
  if has_text then py_getitem entry "etymology_text"
  else
    has_texts <- py_in "etymology_texts" entry ;;
    if has_texts then
      texts <- py_getitem entry "etymology_texts" ;;
      if truthy texts then
        texts' <- py_getitem entry "etymology_texts" ;;
        py_first texts'
      else Ok PNone
    else Ok PNone.

Definition process_entry (entry : pyval) (lang_code : string)
  : result (option extracted) :=
  word <- py_get entry "word" (PStr "") ;;
  if negb (truthy word) then Ok None
  else
    pos <- py_get entry "pos" (PStr "") ;;
    etymology_text <- resolve_etymology entry ;;
    let target_langs := assoc_get lang_code [] TARGET_TRANSLATIONS in
    senses <- py_get entry "senses" (PList []) ;;
    sense_items <- py_iter senses ;;
    senses_data <- senses_loop sense_items [] ;;
    match senses_data with
    | [] => Ok None
    | _ :: _ =>
        translations <- py_get entry "translations" (PList []) ;;
        trans_items <- py_iter translations ;;
        relevant_translations <- translations_loop target_langs trans_items [] ;;
        Ok (Some (mkExtracted word pos senses_data etymology_text
                    relevant_translations))
    end.

(* ================================================================== *)
(** ** The database connection *)

(** Rows as they are handed to [executemany].  The [id] column of the
    [translations] table is filled in by the storage engine and is not
    part of the row. *)
Definition word_row : Type := Z * pyval * string.
Definition sense_row : Type := Z * Z * pyval * pyval * pyval.
Definition trans_row : Type := Z * pyval * pyval * pyval.

Record connection : Type := mkConn {
  words : list word_row;
  senses : list sense_row;
  translations : list trans_row;
  commits : nat
}.

(** [sqlite3.connect] on a path where no database exists. *)
Definition connect : connection := mkConn [] [] [] 0.

(** The three tables and the indexes are created if absent; rows already
    stored are kept. *)
Definition create_schema (conn : connection) : connection :=
  mkConn (words conn) (senses conn) (translations conn) (S (commits conn)).

(** [flush_batches]: each non-empty batch is handed to [executemany],
    then the transaction is committed.  The tables of the model hold the
    rows as they are handed over.  A row the schema refuses (a null
    where it asks NOT NULL, a list or a mapping, an integer outside 64
    bits, an identifier already present) makes the real [executemany]
    raise and ends the run; that failure is not part of the model, so
    what is proved of a run that completes is proved of its rows, and
    nothing here promises that a flush succeeds on rows of that kind. *)
Definition flush_batches (conn : connection) (ws : list word_row)
    (ss : list sense_row) (ts : list trans_row) : connection :=
  let words' := match ws with [] => words conn | _ :: _ => words conn ++ ws end in
  let senses' := match ss with [] => senses conn | _ :: _ => senses conn ++ ss end in
  let translations' :=
    match ts with [] => translations conn | _ :: _ => translations conn ++ ts end in
  mkConn words' senses' translations' (S (commits conn)).

(* ================================================================== *)
(** ** [process_file] *)

(** What the script prints. *)
Inductive message : Type :=
| MsgProcessing (name lang_code : string)
| MsgWarning (line_num : Z)
| MsgProgress (entry_count : Z)
| MsgCompleted (entry_count : Z).

(** The local variables of [process_file], with the connection, the
    standard output and a ghost log of the records handed to
    [process_entry]. *)
Record loop_state : Type := mkState {
  conn : connection;
  stdout : list message;
  calls : list pyval;
  word_id : Z;
  sense_id : Z;
  entry_count : Z;
  words_batch : list word_row;
  senses_batch : list sense_row;
  trans_batch : list trans_row
}.

Definition print (m : message) (st : loop_state) : loop_state :=
  mkState (conn st) (stdout st ++ [m]) (calls st) (word_id st) (sense_id st)
    (entry_count st) (words_batch st) (senses_batch st) (trans_batch st).

Definition log_call (entry : pyval) (st : loop_state) : loop_state :=
  mkState (conn st) (stdout st) (calls st ++ [entry]) (word_id st) (sense_id st)
    (entry_count st) (words_batch st) (senses_batch st) (trans_batch st).

(** Whitespace below code point 256, as [str.isspace] has it. *)
Definition is_space (c : ascii) : bool :=
  let n := Z.of_nat (nat_of_ascii c) in
  ((9 <=? n) && (n <=? 13)) || ((28 <=? n) && (n <=? 32))
  || (n =? 133) || (n =? 160).

Fixpoint lstrip (s : string) : string :=
  match s with
  | EmptyString => EmptyString
  | String c rest => if is_space c then lstrip rest else s
  end.

Fixpoint rstrip (s : string) : string :=
  match s with
  | EmptyString => EmptyString
  | String c rest =>
      match rstrip rest with
      | EmptyString => if is_space c then EmptyString else String c EmptyString
      | r => String c r
      end
  end.

(** [line.strip()]. *)
Definition py_strip (s : string) : string := rstrip (lstrip s).

(** The loop [for gloss, _ in senses_data]. *)
Fixpoint add_senses (senses_data : list (pyval * list translation))
    (wid : Z) (pos etymology_text : pyval)
    (batch : list sense_row) (sid : Z) : list sense_row * Z :=
  match senses_data with
  | [] => (batch, sid)
  | (gloss, _) :: rest =>
      add_senses rest wid pos etymology_text
        (batch ++ [(sid, wid, pos, gloss, etymology_text)]) (sid + 1)
  end.

(** The loop [for trans in translations]. *)
Fixpoint add_translations (trs : list translation) (first_sense_id : Z)
    (batch : list trans_row) : list trans_row :=
  match trs with
  | [] => batch
  | trans :: rest =>
      add_translations rest first_sense_id
        (batch ++ [(first_sense_id, target_lang trans, target_word trans,
                    roman trans)])
  end.

(** The rows of one accepted record are appended to the batches, the
    cursors advance, and the batches are flushed every [BATCH_SIZE]
    entries. *)
Definition add_entry (lang_code : string) (r : extracted) (st : loop_state)
  : loop_state :=
  let words_batch' := words_batch st ++ [(word_id st, ex_word r, lang_code)] in
  let first_sense_id := sense_id st in
  let '(senses_batch', sense_id') :=
    add_senses (ex_senses_data r) (word_id st) (ex_pos r) (ex_etymology_text r)
      (senses_batch st) (sense_id st) in
  let trans_batch' :=
    add_translations (ex_translations r) first_sense_id (trans_batch st) in
  let word_id' := word_id st + 1 in
  let entry_count' := entry_count st + 1 in
  if entry_count' mod BATCH_SIZE =? 0 then
    print (MsgProgress entry_count')
      (mkState (flush_batches (conn st) words_batch' senses_batch' trans_batch')
         (stdout st) (calls st) word_id' sense_id' entry_count' [] [] [])
  else
    mkState (conn st) (stdout st) (calls st) word_id' sense_id' entry_count'
      words_batch' senses_batch' trans_batch'.

Section Decoder.

(** [json.loads]: [None] stands for [json.JSONDecodeError]. *)
Variable json_loads : string -> option pyval.

(** One iteration of [for line_num, line in enumerate(f, 1)]. *)
Definition loop_body (lang_code : string) (st : loop_state)
    (line_num : Z) (line : string) : result loop_state :=
  let line := py_strip line in
  if (line =? "")%string then Ok st
  else
    match json_loads line with
    | None => Ok (print (MsgWarning line_num) st)
    | Some entry =>
        entry_lang <- py_get entry "lang_code" (PStr "") ;;
        if negb (py_eq_str entry_lang lang_code) then Ok st
        else
          let st := log_call entry st in
          res <- process_entry entry lang_code ;;
          match res with
          | None => Ok st
          | Some r => Ok (add_entry lang_code r st)
          end
    end.

Fixpoint run_lines (lang_code : string) (lines : list string) (line_num : Z)
    (st : loop_state) : result loop_state :=
  match lines with
  | [] => Ok st
  | line :: rest =>
      st' <- loop_body lang_code st line_num line ;;
      run_lines lang_code rest (line_num + 1) st'
  end.

(** The guarded flush after the loop. *)
Definition final_flush (st : loop_state) : loop_state :=
  match words_batch st, senses_batch st, trans_batch st with
  | [], [], [] => st
  | _, _, _ =>
      mkState
        (flush_batches (conn st) (words_batch st) (senses_batch st)
           (trans_batch st))
        (stdout st) (calls st) (word_id st) (sense_id st) (entry_count st)
        (words_batch st) (senses_batch st) (trans_batch st)
  end.

(** The state [process_file] starts its loop in. *)
Definition start_state (c : connection) (out : list message) (log : list pyval)
    (start_word_id start_sense_id : Z) : loop_state :=
  mkState c out log start_word_id start_sense_id 0 [] [] [].

(** [process_file]: the file is the list of its lines; the state that
    comes back carries the connection and the returned triple
    [(word_id, sense_id, entry_count)]. *)
Definition process_file (c : connection) (out : list message) (log : list pyval)
    (name : string) (lines : list string) (lang_code : string)
    (start_word_id start_sense_id : Z) : result loop_state :=
  let st0 := start_state c out log start_word_id start_sense_id in
  let st0 := print (MsgProcessing name lang_code) st0 in
  st <- run_lines lang_code lines 1 st0 ;;
  let st := final_flush st in
  Ok (print (MsgCompleted (entry_count st)) st).

End Decoder.

(* ================================================================== *)
(** ** [main] *)

(** The part of [main] that runs the two files: a fresh database, both
    cursors at 1, the English file before the Spanish one.  A file is
    given by its name and its lines, [None] when the option is absent.
    Argument parsing, the checks on the paths and the final report are
    left out.  The result is the final state with [total_entries]. *)
Definition main (json_loads : string -> option pyval)
    (en es : option (string * list string)) : result (loop_state * Z) :=
  let c := create_schema connect in
  let st0 := start_state c [] [] 1 1 in
  let total_entries := 0 in
  r1 <- match en with
        | Some (name, lines) =>
            st <- process_file json_loads (conn st0) (stdout st0) (calls st0)
                    name lines "en" (word_id st0) (sense_id st0) ;;
            Ok (st, total_entries + entry_count st)
        | None => Ok (st0, total_entries)
        end ;;
  let '(st1, total_entries) := r1 in
  match es with
  | Some (name, lines) =>
      st <- process_file json_loads (conn st1) (stdout st1) (calls st1)
              name lines "es" (word_id st1) (sense_id st1) ;;
      Ok (st, total_entries + entry_count st)
  | None => Ok (st1, total_entries)
  end.

(* ================================================================== *)
(** ** A decoder for the examples

    [simple_json_loads] decodes the fragment of JSON without fractional or
    exponent numbers, the [NaN] and [Infinity] literals and [\u]
    escapes; it gives [None] outside that fragment and on malformed
    text.  It is the decoder the concrete runs below use. *)

Fixpoint skip_ws (s : string) : string :=
  match s with
  | String c rest =>
      if ((c =? " ") || (c =? "009") || (c =? "010") || (c =? "013"))%char
      then skip_ws rest else s
  | EmptyString => s
  end.

(** [d[k] = v]: a repeated key keeps its place and takes the new value. *)
Fixpoint dict_set (k : string) (v : pyval) (kv : list (string * pyval))
  : list (string * pyval) :=
  match kv with
  | [] => [(k, v)]
  | (k', v') :: rest =>
      if (k' =? k)%string then (k, v) :: rest else (k', v') :: dict_set k v rest
  end.

(** The characters of a string literal after its opening quote. *)
Fixpoint parse_string (s : string) : option (string * string) :=
  match s with
  | EmptyString => None
  | String c rest =>
      if (c =? "034")%char then Some (EmptyString, rest)
      else if (c =? "\")%char then
        match rest with
        | String e rest' =>
            let unescaped :=
              if (e =? "034")%char then Some "034"%char
              else if (e =? "\")%char then Some "\"%char
              else if (e =? "/")%char then Some "/"%char
              else if (e =? "b")%char then Some "008"%char
              else if (e =? "f")%char then Some "012"%char
              else if (e =? "n")%char then Some "010"%char
              else if (e =? "r")%char then Some "013"%char
              else if (e =? "t")%char then Some "009"%char
              else None in
            match unescaped, parse_string rest' with
            | Some u, Some (body, rest'') => Some (String u body, rest'')
            | _, _ => None
            end
        | EmptyString => None
        end
      else if (nat_of_ascii c <? 32)%nat then None
      else
        match parse_string rest with
        | Some (body, rest') => Some (String c body, rest')
        | None => None
        end
  end.

Definition is_digit (c : ascii) : bool :=
  ((48 <=? nat_of_ascii c) && (nat_of_ascii c <=? 57))%nat.

Fixpoint parse_digits (s : string) (acc : Z) : Z * string :=
  match s with
  | String c rest =>
      if is_digit c
      then parse_digits rest (10 * acc + (Z.of_nat (nat_of_ascii c) - 48))
      else (acc, s)
  | EmptyString => (acc, s)
  end.

(** An integer literal: no leading zero, no fraction, no exponent. *)
Definition parse_int (s : string) : option (Z * string) :=
  let '(neg, s1) :=
    match s with
    | String c rest => if (c =? "-")%char then (true, rest) else (false, s)
    | EmptyString => (false, s)
    end in
  match s1 with
  | String c rest =>
      if is_digit c then
        let '(n, s2) :=
          if (c =? "0")%char then (0, rest) else parse_digits s1 0 in
        match s2 with
        | String d _ =>
            if is_digit d || (d =? ".")%char || (d =? "e")%char || (d =? "E")%char
            then None
            else Some (if neg then - n else n, s2)
        | EmptyString => Some (if neg then - n else n, s2)
        end
      else None
  | EmptyString => None
  end.

(** [strip_prefix p s]: what follows [p] in [s]. *)
Fixpoint strip_prefix (p s : string) : option string :=
  match p, s with
  | EmptyString, _ => Some s
  | String a p', String b s' => if (a =? b)%char then strip_prefix p' s' else None
  | String _ _, EmptyString => None
  end.

Fixpoint parse_value (fuel : nat) (s : string) : option (pyval * string) :=
  match fuel with
  | O => None
  | S fuel =>
      let s := skip_ws s in
      match s with
      | EmptyString => None
      | String c rest =>
          if (c =? "{")%char then
            match skip_ws rest with
            | String "}" rest' => Some (PDict [], rest')
            | _ => parse_members fuel rest []
            end
          else if (c =? "[")%char then
            match skip_ws rest with
            | String "]" rest' => Some (PList [], rest')
            | _ => parse_elements fuel rest []
            end
          else if (c =? "034")%char then
            match parse_string rest with
            | Some (str, rest') => Some (PStr str, rest')
            | None => None
            end
          else
            match strip_prefix "true" s, strip_prefix "false" s,
                  strip_prefix "null" s with
            | Some rest', _, _ => Some (PBool true, rest')
            | _, Some rest', _ => Some (PBool false, rest')
            | _, _, Some rest' => Some (PNone, rest')
            | None, None, None =>
                match parse_int s with
                | Some (n, rest') => Some (PInt n, rest')
                | None => None
                end
            end
      end
  end

with parse_elements (fuel : nat) (s : string) (acc : list pyval)
  : option (pyval * string) :=
  match fuel with
  | O => None
  | S fuel =>
      match parse_value fuel s with
      | Some (v, rest) =>
          match skip_ws rest with
          | String "," rest' => parse_elements fuel rest' (acc ++ [v])
          | String "]" rest' => Some (PList (acc ++ [v]), rest')
          | _ => None
          end
      | None => None
      end
  end

with parse_members (fuel : nat) (s : string) (acc : list (string * pyval))
  : option (pyval * string) :=
  match fuel with
  | O => None
  | S fuel =>
      match skip_ws s with
      | String "034"%char rest =>
          match parse_string rest with
          | Some (k, rest1) =>
              match skip_ws rest1 with
              | String ":" rest2 =>
                  match parse_value fuel rest2 with
                  | Some (v, rest3) =>
                      match skip_ws rest3 with
                      | String "," rest4 =>
                          parse_members fuel rest4 (dict_set k v acc)
                      | String "}" rest4 => Some (PDict (dict_set k v acc), rest4)
                      | _ => None
                      end
                  | None => None
                  end
              | _ => None
              end
          | None => None
          end
      | _ => None
      end
  end.

Definition simple_json_loads (s : string) : option pyval :=
  match parse_value (2 * String.length s + 2) s with
  | Some (v, rest) =>
      match skip_ws rest with
      | EmptyString => Some v
      | String _ _ => None
      end
  | None => None
  end.

(** [dq s]: [s] with each apostrophe turned into a double quote, to write
    JSON text as a literal. *)
Fixpoint dq (s : string) : string :=
  match s with
  | EmptyString => EmptyString
  | String c rest => String (if (c =? "'")%char then "034"%char else c) (dq rest)
  end.

(** The line of the end-to-end scenario and the record it decodes to. *)
Definition cat_line : string :=
  dq "{'word':'cat','lang_code':'en','pos':'noun','senses':[{'glosses':['a small domesticated feline']}],'translations':[{'lang_code':'es','word':'gato'}]}".

Definition cat_entry : pyval :=
  PDict [ ("word", PStr "cat");
          ("lang_code", PStr "en");
          ("pos", PStr "noun");
          ("senses", PList [PDict [("glosses", PList [PStr "a small domesticated feline"])]]);
          ("translations", PList [PDict [("lang_code", PStr "es"); ("word", PStr "gato")]]) ].

Definition newline : string := String "010"%char EmptyString.

(** A record whose only sense has an empty string for gloss. *)
Definition empty_gloss_line : string :=
  dq "{'word':'cat','lang_code':'en','senses':[{'glosses':['']}]}".

(** A record whose only sense has no gloss. *)
Definition glossless_line : string :=
  dq "{'word':'cat','lang_code':'en','senses':[{'glosses':[]}]}".


(** A Spanish record with two senses, a sense without gloss, both
    etymology formats and translations under both field names. *)
Definition gato_line : string :=
  dq "{'word':'gato','lang_code':'es','senses':[{'glosses':['felino','minino']},{'tags':[]},{'glosses':['persona astuta']}],'etymology_texts':['Del latin cattus','otra'],'translations':[{'code':'en','word':'cat','roman':'kat'},{'lang_code':'fr','word':'chat'},{'lang_code':'','code':'en','word':'tomcat'},{'lang_code':'en','word':''}]}".

Definition gato_entry : pyval :=
  PDict [ ("word", PStr "gato"); ("lang_code", PStr "es");
          ("senses",
           PList [ PDict [("glosses", PList [PStr "felino"; PStr "minino"])];
                   PDict [("tags", PList [])];
                   PDict [("glosses", PList [PStr "persona astuta"])] ]);
          ("etymology_texts", PList [PStr "Del latin cattus"; PStr "otra"]);
          ("translations",
           PList [ PDict [("code", PStr "en"); ("word", PStr "cat");
                          ("roman", PStr "kat")];
                   PDict [("lang_code", PStr "fr"); ("word", PStr "chat")];
                   PDict [("lang_code", PStr ""); ("code", PStr "en");
                          ("word", PStr "tomcat")];
                   PDict [("lang_code", PStr "en"); ("word", PStr "")] ]) ].

(** A line that is not JSON. *)
Definition malformed_line : string := "{not json".

(** A line that is JSON but not a record. *)
Definition list_line : string := "[1, 2]".

(** A short record, to fill a batch. *)
Definition short_line : string :=
  dq "{'word':'a','lang_code':'en','senses':[{'glosses':['b']}]}".

(* ================================================================== *)
(** ** Vocabulary of the properties *)

(** The value a record has under a key, when it is a mapping that has
    the key. *)
Definition field (k : string) (v : pyval) : option pyval :=
  match v with
  | PDict kv => lookup k kv
  | _ => None
  end.

(** [field_or k d v]: the value under [k], [d] when the key is absent. *)
Definition field_or (k : string) (d : pyval) (v : pyval) : pyval :=
  match field k v with
  | Some x => x
  | None => d
  end.

(** The elements of a sequence: of a list, or the characters of a string. *)
Definition elements (v : pyval) : list pyval :=
  match v with
  | PList l => l
  | PStr s => chars s
  | _ => []
  end.

(** The glosses of a sense, and whether it has at least one. *)
Definition glosses_of (sense : pyval) : list pyval :=
  match field "glosses" sense with
  | Some v => elements v
  | None => []
  end.

Definition has_gloss (sense : pyval) : bool :=
  match glosses_of sense with
  | [] => false
  | _ :: _ => true
  end.

(** The first gloss of a sense, as a list of length zero or one. *)
Definition first_gloss (sense : pyval) : list pyval := firstn 1 (glosses_of sense).


(** The allow-list of a source language. *)
Definition allow_list (lang_code : string) : list string :=
  assoc_get lang_code [] TARGET_TRANSLATIONS.

(** The language code of a translation object: field [lang_code] when
    it is non-empty, field [code] otherwise. *)
Definition trans_lang_of (trans : pyval) : pyval :=
  match field "lang_code" trans with
  | Some v => if truthy v then v else field_or "code" (PStr "") trans
  | None => field_or "code" (PStr "") trans
  end.

(** A translation is kept when its language is allowed and its target
    text is non-empty. *)
Definition kept (lang_code : string) (trans : pyval) : bool :=
  py_in_strs (trans_lang_of trans) (allow_list lang_code)
  && truthy (field_or "word" (PStr "") trans).

Definition translation_of (trans : pyval) : translation :=
  mkTranslation (trans_lang_of trans) (field_or "word" (PStr "") trans)
    (field_or "roman" PNone trans).

(** Rows stored or pending: what the tables hold once the batches are
    flushed. *)
Definition all_words (st : loop_state) : list word_row :=
  words (conn st) ++ words_batch st.
Definition all_senses (st : loop_state) : list sense_row :=
  senses (conn st) ++ senses_batch st.
Definition all_translations (st : loop_state) : list trans_row :=
  translations (conn st) ++ trans_batch st.

(** Columns of the rows. *)
Definition word_row_id (r : word_row) : Z := fst (fst r).
Definition sense_row_id (r : sense_row) : Z :=
  let '(i, _, _, _, _) := r in i.
Definition sense_row_word_id (r : sense_row) : Z :=
  let '(_, w, _, _, _) := r in w.
Definition sense_row_pos (r : sense_row) : pyval :=
  let '(_, _, p, _, _) := r in p.
Definition sense_row_gloss (r : sense_row) : pyval :=
  let '(_, _, _, g, _) := r in g.
Definition sense_row_etymology (r : sense_row) : pyval :=
  let '(_, _, _, _, e) := r in e.
Definition trans_row_sense_id (r : trans_row) : Z :=
  let '(i, _, _, _) := r in i.

(** The definition rows of an accepted record, from identifier [sid]. *)
Fixpoint sense_rows (glosses : list pyval) (wid : Z) (pos etymology_text : pyval)
    (sid : Z) : list sense_row :=
  match glosses with
  | [] => []
  | g :: rest =>
      (sid, wid, pos, g, etymology_text)
        :: sense_rows rest wid pos etymology_text (sid + 1)
  end.

Definition entry_sense_rows (r : extracted) (wid sid : Z) : list sense_row :=
  sense_rows (map fst (ex_senses_data r)) wid (ex_pos r) (ex_etymology_text r) sid.

(** The cross-reference rows of an accepted record, all attached to the
    definition [sid]. *)
Definition entry_trans_rows (r : extracted) (sid : Z) : list trans_row :=
  map (fun t => (sid, target_lang t, target_word t, roman t)) (ex_translations r).

(** The rows a run owes to the records it handed to the extractor: each
    accepted record gives one entry row, its definition rows and its
    cross-reference rows, once, with consecutive identifiers. *)
Fixpoint expected_rows (lang_code : string) (entries : list pyval) (wid sid : Z)
  : list word_row * list sense_row * list trans_row :=
  match entries with
  | [] => ([], [], [])
  | e :: rest =>
      match process_entry e lang_code with
      | Ok (Some r) =>
          let '(ws, ss, ts) :=
            expected_rows lang_code rest (wid + 1)
              (sid + Z.of_nat (List.length (ex_senses_data r))) in
          ((wid, ex_word r, lang_code) :: ws,
           entry_sense_rows r wid sid ++ ss,
           entry_trans_rows r sid ++ ts)
      | _ => expected_rows lang_code rest wid sid
      end
  end.

Definition expected_words (lang_code : string) (entries : list pyval) (wid sid : Z)
  : list word_row := fst (fst (expected_rows lang_code entries wid sid)).
Definition expected_senses (lang_code : string) (entries : list pyval) (wid sid : Z)
  : list sense_row := snd (fst (expected_rows lang_code entries wid sid)).
Definition expected_translations (lang_code : string) (entries : list pyval)
    (wid sid : Z) : list trans_row :=
  snd (expected_rows lang_code entries wid sid).

(** The batches hold the entries counted since the last multiple of
    [BATCH_SIZE], and each multiple reached has cost one commit. *)
Definition batch_inv (commits0 : nat) (st : loop_state) : Prop :=
  0 <= entry_count st
  /\ commits (conn st) = (commits0 + Z.to_nat (entry_count st / BATCH_SIZE))%nat
  /\ (entry_count st mod BATCH_SIZE = 0 ->
      words_batch st = [] /\ senses_batch st = [] /\ trans_batch st = []).

(** [handed json_loads lang_code lines e]: the record [e] is what a
    non-blank line of the file decodes to, and it declares the language
    being processed. *)
Definition handed (json_loads : string -> option pyval) (lang_code : string)
    (lines : list string) (e : pyval) : Prop :=
  exists line,
    In line lines
    /\ py_strip line <> EmptyString
    /\ json_loads (py_strip line) = Some e
    /\ field_or "lang_code" (PStr "") e = PStr lang_code.


(** The sense list of a record: empty when the field is absent. *)
Definition sense_list (entry : pyval) : option (list pyval) :=
  match field "senses" entry with
  | None => Some []
  | Some (PList l) => Some l
  | Some _ => None
  end.

(** The plural etymology field, when present, is a list. *)
Definition etymology_list_typed (entry : pyval) : Prop :=
  match field "etymology_texts" entry with
  | None => True
  | Some v => exists l, v = PList l
  end.


(** The result of an accepting extraction, for closed examples. *)
Definition run_option (x : result (option extracted)) : extracted :=
  match x with
  | Ok (Some r) => r
  | _ => mkExtracted PNone PNone [] PNone []
  end.

(** The entry count a call of [process_file] returns. *)
Definition returned_count (x : result loop_state) : option Z :=
  match x with
  | Ok st => Some (entry_count st)
  | Raise _ => None
  end.

(** A file of [BATCH_SIZE] qualifying records. *)
Definition batch_file : list string := repeat short_line (Z.to_nat BATCH_SIZE).

(** The four ways one iteration of the loop ends without raising: the
    line is skipped, a warning is printed, the record is handed to the
    extractor and rejected, or it is handed over and accepted. *)
Inductive step (json_loads : string -> option pyval) (lang_code : string)
    (st : loop_state) (line_num : Z) (line : string) : loop_state -> Prop :=
| step_skip : step json_loads lang_code st line_num line st
| step_warn :
    step json_loads lang_code st line_num line (print (MsgWarning line_num) st)
| step_reject (entry : pyval) :
    handed json_loads lang_code [line] entry ->
    process_entry entry lang_code = Ok None ->
    step json_loads lang_code st line_num line (log_call entry st)
| step_accept (entry : pyval) (r : extracted) :
    handed json_loads lang_code [line] entry ->
    process_entry entry lang_code = Ok (Some r) ->
    step json_loads lang_code st line_num line
      (add_entry lang_code r (log_call entry st)).

(** [count_from start n]: the [n] consecutive integers from [start]. *)
Fixpoint count_from (start : Z) (n : nat) : list Z :=
  match n with
  | O => []
  | S n' => start :: count_from (start + 1) n'
  end.

(** The state of a successful run, for closed examples. *)
Definition run_state (r : result loop_state) (d : loop_state) : loop_state :=
  match r with
  | Ok st => st
  | Raise _ => d
  end.

(* ================================================================== *)
(** ** The command line of [main]

    The input files are given by their paths, each with its name and its
    lines; [existing] is the database already at the output path, if
    any.  The output path is taken to differ from the input paths.  The
    pragmas, the final optimisation and the report of the size do not
    change the tables and are left out. *)

Fixpoint file_at (path : string) (inputs : list (string * (string * list string)))
  : option (string * list string) :=
  match inputs with
  | [] => None
  | (p, f) :: rest => if (p =? path)%string then Some f else file_at path rest
  end.

(** How a run of the script ends: [parser.error] and [sys.exit] with
    their status and the database left at the output path, an uncaught
    exception, or the normal end with the database written and
    [total_entries]. *)
Inductive outcome : Type :=
| Exit (status : Z) (db : option connection)
| Crash (e : exn)
| Finished (db : connection) (total_entries : Z).

(** [if path and not path.exists()]. *)
Definition missing (inputs : list (string * (string * list string)))
    (path : option string) : bool :=
  match path with
  | Some p => match file_at p inputs with Some _ => false | None => true end
  | None => false
  end.

Definition opened (inputs : list (string * (string * list string)))
    (path : option string) : option (string * list string) :=
  match path with
  | Some p => file_at p inputs
  | None => None
  end.

(** [main] from the parsed arguments on: the two checks, then the
    removal of the existing database and the run on a fresh one. *)
Definition run_main (json_loads : string -> option pyval)
    (inputs : list (string * (string * list string)))
    (existing : option connection) (en es : option string) : outcome :=
  match en, es with
  | None, None => Exit 2 existing
  | _, _ =>
      if missing inputs en then Exit 1 existing
      else if missing inputs es then Exit 1 existing
      else
        match main json_loads (opened inputs en) (opened inputs es) with
        | Ok (st, total_entries) => Finished (conn st) total_entries
        | Raise e => Crash e
        end
  end.

(* ================================================================== *)
(** ** Vocabulary of the further properties *)

Definition is_dict (v : pyval) : Prop := exists kv, v = PDict kv.

(** A sense object whose gloss field, when present, is a list. *)
Definition sense_typed (sense : pyval) : Prop :=
  is_dict sense
  /\ match field "glosses" sense with
     | None => True
     | Some v => exists l, v = PList l
     end.

(** The field [k] of [entry], when present, is a list of [P]s. *)
Definition list_field (k : string) (P : pyval -> Prop) (entry : pyval) : Prop :=
  match field k entry with
  | None => True
  | Some v => exists l, v = PList l /\ Forall P l
  end.

(** A record with the fields of the documented types: a mapping whose
    plural etymology is a list, whose senses are a list of sense
    objects with lists of glosses and whose translations are a list of
    objects. *)
Definition record_typed (entry : pyval) : Prop :=
  is_dict entry
  /\ etymology_list_typed entry
  /\ list_field "senses" sense_typed entry
  /\ list_field "translations" is_dict entry.

(** The records of a file that reach the extractor, in order: what the
    non-blank lines decode to, when it declares the language processed. *)
Fixpoint handed_entries (json_loads : string -> option pyval)
    (lang_code : string) (lines : list string) : list pyval :=
  match lines with
  | [] => []
  | line :: rest =>
      let tail := handed_entries json_loads lang_code rest in
      if (py_strip line =? "")%string then tail
      else
        match json_loads (py_strip line) with
        | Some entry =>
            if py_eq_str (field_or "lang_code" (PStr "") entry) lang_code
            then entry :: tail else tail
        | None => tail
        end
  end.

(** A line on which the loop does not raise: blank, not decodable, a
    mapping of another language, or a mapping of the language on which
    the extractor returns. *)
Definition line_ok (json_loads : string -> option pyval) (lang_code : string)
    (line : string) : bool :=
  if (py_strip line =? "")%string then true
  else
    match json_loads (py_strip line) with
    | None => true
    | Some (PDict kv) =>
        if py_eq_str (field_or "lang_code" (PStr "") (PDict kv)) lang_code
        then match process_entry (PDict kv) lang_code with
             | Ok _ => true
             | Raise _ => false
             end
        else true
    | Some _ => false
    end.

(** A line that stores nothing and reaches no extractor: blank, not
    decodable, or a mapping of another language. *)
Definition is_noise (json_loads : string -> option pyval) (lang_code : string)
    (line : string) : bool :=
  if (py_strip line =? "")%string then true
  else
    match json_loads (py_strip line) with
    | None => true
    | Some (PDict kv) =>
        negb (py_eq_str (field_or "lang_code" (PStr "") (PDict kv)) lang_code)
    | Some _ => false
    end.

(** The commits a file of [n] entries costs: one for each full batch and
    one for the remainder. *)
Definition flushes (n : Z) : nat :=
  (Z.to_nat (n / BATCH_SIZE)%Z
   + (if (n mod BATCH_SIZE =? 0)%Z then 0 else 1))%nat.

(** The pending entry rows are the entries counted since the last
    multiple of [BATCH_SIZE]. *)
Definition pending_inv (st : loop_state) : Prop :=
  0 <= entry_count st
  /\ Z.of_nat (List.length (words_batch st)) = entry_count st mod BATCH_SIZE.

(** References between the rows of three tables: every definition has
    its entry, every entry has a definition, every cross-reference has
    its definition. *)
Definition references_hold (ws : list word_row) (ss : list sense_row)
    (ts : list trans_row) : Prop :=
  (forall s, In s ss -> exists w, In w ws /\ sense_row_word_id s = word_row_id w)
  /\ (forall w, In w ws -> exists s, In s ss /\ sense_row_word_id s = word_row_id w)
  /\ (forall t, In t ts -> exists s, In s ss /\ trans_row_sense_id t = sense_row_id s).

(** Columns of the rows, continued. *)
Definition word_row_word (r : word_row) : pyval := snd (fst r).
Definition word_row_lang (r : word_row) : string := snd r.
Definition trans_row_lang (r : trans_row) : pyval :=
  let '(_, l, _, _) := r in l.
Definition trans_row_word (r : trans_row) : pyval :=
  let '(_, _, w, _) := r in w.

(** A database as a run from empty leaves it: identifiers counted from
    1 without gap in both tables, references that hold, and entries with
    a non-empty headword in one of the two languages. *)
Definition database_well_formed (c : connection) : Prop :=
  map word_row_id (words c) = count_from 1 (List.length (words c))
  /\ map sense_row_id (senses c) = count_from 1 (List.length (senses c))
  /\ references_hold (words c) (senses c) (translations c)
  /\ (forall w, In w (words c) ->
        truthy (word_row_word w) = true
        /\ (word_row_lang w = "en" \/ word_row_lang w = "es")).

(** A value that is not a mapping. *)
Definition not_dict (v : pyval) : Prop :=
  match v with
  | PDict _ => False
  | _ => True
  end.

(** The exception a line ends the run with, if any: [AttributeError] for
    a JSON value that is not a mapping, the exception of the extractor
    for a record of the language. *)
Definition line_exception (json_loads : string -> option pyval)
    (lang_code : string) (line : string) : option exn :=
  if (py_strip line =? "")%string then None
  else
    match json_loads (py_strip line) with
    | None => None
    | Some (PDict kv) =>
        if py_eq_str (field_or "lang_code" (PStr "") (PDict kv)) lang_code
        then match process_entry (PDict kv) lang_code with
             | Ok _ => None
             | Raise e => Some e
             end
        else None
    | Some _ => Some AttributeError
    end.

(** A record whose senses are a number. *)
Definition bad_senses_line : string :=
  dq "{'word':'cat','lang_code':'en','senses':5}".

(** A record without headword and with ill-typed fields. *)
Definition headless_line : string :=
  dq "{'lang_code':'en','senses':5,'translations':null,'etymology_texts':7}".

(** The line numbers of the warnings in an output. *)
Definition warnings (out : list message) : list Z :=
  flat_map (fun m => match m with MsgWarning n => [n] | _ => [] end) out.

(** The numbers, counted from [n], of the non-blank lines that do not
    decode. *)
Fixpoint undecodable_lines (json_loads : string -> option pyval)
    (lines : list string) (n : Z) : list Z :=
  match lines with
  | [] => []
  | line :: rest =>
      let tail := undecodable_lines json_loads rest (n + 1) in
      if (py_strip line =? "")%string then tail
      else
        match json_loads (py_strip line) with
        | None => n :: tail
        | Some _ => tail
        end
  end.

(** The keys of a record that [process_entry] reads. *)
Definition keys_read : list string :=
  ["word"; "pos"; "etymology_text"; "etymology_texts"; "senses"; "translations"].

(** Whether the extractor accepts a record. *)
Definition accepted (lang_code : string) (e : pyval) : bool :=
  match process_entry e lang_code with
  | Ok (Some _) => true
  | _ => false
  end.

(** The definition rows of a run, record by record: each accepted
    record with the rows it owes. *)
Fixpoint sense_groups (lang_code : string) (entries : list pyval) (wid sid : Z)
  : list (pyval * list sense_row) :=
  match entries with
  | [] => []
  | e :: rest =>
      match process_entry e lang_code with
      | Ok (Some r) =>
          (e, entry_sense_rows r wid sid)
            :: sense_groups lang_code rest (wid + 1)
                 (sid + Z.of_nat (List.length (ex_senses_data r)))
      | _ => sense_groups lang_code rest wid sid
      end
  end.

(** An English record with two senses. *)
Definition two_senses_line : string :=
  dq "{'word':'set','lang_code':'en','senses':[{'glosses':['a collection']},{'glosses':['to put']}]}".

(* ================================================================== *)
(** ** Basic facts about the Python operations *)

Lemma bind_ok {A B : Type} (m : result A) (k : A -> result B) (b : B) :
  bind m k = Ok b -> exists a, m = Ok a /\ k a = Ok b.
Proof.
  destruct m as [a|e]; simpl; intros H.
  - exists a; split; [reflexivity | exact H].
  - discriminate H.
Qed.

Lemma py_get_ok (v : pyval) (k : string) (d x : pyval) :
  py_get v k d = Ok x -> (exists kv, v = PDict kv) /\ x = field_or k d v.
Proof.
  destruct v; simpl; try discriminate.
  intros H; injection H as <-. split; [eexists; reflexivity | reflexivity].
Qed.

Lemma py_get_dict (kv : list (string * pyval)) (k : string) (d : pyval) :
  py_get (PDict kv) k d = Ok (field_or k d (PDict kv)).
Proof. reflexivity. Qed.

Lemma py_eq_str_true (v : pyval) (s : string) :
  py_eq_str v s = true <-> v = PStr s.
Proof.
  destruct v; simpl; split; intros H; try discriminate.
  - apply String.eqb_eq in H. now subst.
  - injection H as ->. apply String.eqb_refl.
Qed.

Lemma py_eq_str_false (v : pyval) (s : string) :
  py_eq_str v s = false <-> v <> PStr s.
Proof.
  split.
  - intros H E. apply py_eq_str_true in E. congruence.
  - intros H. destruct (py_eq_str v s) eqn:E; [|reflexivity].
    apply py_eq_str_true in E. contradiction.
Qed.

(** A truthy object that has a first element is a non-empty sequence,
    and the first element is the head of its elements. *)
Lemma py_first_elements (v x : pyval) :
  py_first v = Ok x -> exists rest, elements v = x :: rest.
Proof.
  destruct v as [| | | |s|l|kv]; simpl; try discriminate.
  - destruct s as [|c s]; [discriminate|].
    intros H; injection H as <-. eexists; reflexivity.
  - destruct l as [|y l]; [discriminate|].
    intros H; injection H as <-. eexists; reflexivity.
Qed.

(** A falsy object has no elements. *)
Lemma falsy_elements (v : pyval) : truthy v = false -> elements v = [].
Proof.
  destruct v as [| | | |s|l|kv]; simpl; try reflexivity.
  - destruct s; [reflexivity | discriminate].
  - destruct l; [reflexivity | discriminate].
Qed.

(* ================================================================== *)
(** ** The two loops of [process_entry] *)

Lemma senses_loop_spec (items : list pyval) :
  forall acc sd,
    senses_loop items acc = Ok sd ->
    sd = acc ++ map (fun g => (g, [])) (flat_map first_gloss items)
    /\ Forall (fun s => exists kv, s = PDict kv) items.
Proof.
  induction items as [|sense rest IH]; intros acc sd H;
    cbn [senses_loop] in H; cbn [flat_map].
  - injection H as <-. simpl. rewrite app_nil_r. split; [reflexivity | constructor].
  - apply bind_ok in H as (glosses & Hg & H).
    apply py_get_ok in Hg as ((kv & ->) & ->).
    assert (Hgl : glosses_of (PDict kv)
                  = elements (field_or "glosses" (PList []) (PDict kv))).
    { unfold glosses_of, field_or. destruct (field "glosses" (PDict kv)); reflexivity. }
    destruct (truthy (field_or "glosses" (PList []) (PDict kv))) eqn:Ht.
    + apply bind_ok in H as (gloss & Hf & H).
      apply py_first_elements in Hf as (more & Hel).
      apply IH in H as (-> & Hall).
      split; [|constructor; [eexists; reflexivity | exact Hall]].
      change (first_gloss (PDict kv)) with (firstn 1 (glosses_of (PDict kv))).
      rewrite Hgl, Hel.
      cbn [firstn app map]. now rewrite <- app_assoc.
    + apply IH in H as (-> & Hall).
      split; [|constructor; [eexists; reflexivity | exact Hall]].
      change (first_gloss (PDict kv)) with (firstn 1 (glosses_of (PDict kv))).
      now rewrite Hgl, (falsy_elements _ Ht).
Qed.


Lemma count_first_gloss (items : list pyval) :
  List.length (flat_map first_gloss items) = List.length (filter has_gloss items).
Proof.
  induction items as [|s rest IH]; simpl; [reflexivity|].
  rewrite length_app, IH. unfold first_gloss, has_gloss.
  destruct (glosses_of s); reflexivity.
Qed.

Lemma trans_lang_of_dict (kv : list (string * pyval)) :
  (if truthy (field_or "lang_code" PNone (PDict kv))
   then field_or "lang_code" PNone (PDict kv)
   else field_or "code" (PStr "") (PDict kv)) = trans_lang_of (PDict kv).
Proof.
  unfold trans_lang_of, field_or at 1 2.
  destruct (field "lang_code" (PDict kv)); reflexivity.
Qed.

Lemma translations_loop_spec (target_langs : list string) (items : list pyval) :
  forall acc rel,
    translations_loop target_langs items acc = Ok rel ->
    rel = acc ++ map translation_of
                   (filter (fun t => py_in_strs (trans_lang_of t) target_langs
                                     && truthy (field_or "word" (PStr "") t)) items)
    /\ Forall (fun t => exists kv, t = PDict kv) items.
Proof.
  induction items as [|trans rest IH]; intros acc rel H;
    cbn [translations_loop] in H; cbn [filter].
  - injection H as <-. simpl. rewrite app_nil_r. split; [reflexivity | constructor].
  - apply bind_ok in H as (code1 & Hc & H).
    apply py_get_ok in Hc as ((kv & ->) & ->).
    apply bind_ok in H as (trans_lang & Hl & H).
    assert (trans_lang = trans_lang_of (PDict kv)) as ->.
    { rewrite <- trans_lang_of_dict.
      destruct (truthy (field_or "lang_code" PNone (PDict kv))).
      - now injection Hl as <-.
      - rewrite py_get_dict in Hl. now injection Hl as <-. }
    clear Hl.
    destruct (py_in_strs (trans_lang_of (PDict kv)) target_langs);
      cbn [andb].
    + rewrite py_get_dict in H. cbn [bind] in H.
      destruct (truthy (field_or "word" (PStr "") (PDict kv))).
      * rewrite py_get_dict in H. cbn [bind] in H.
        apply IH in H as (-> & Hall).
        split; [|constructor; [eexists; reflexivity | exact Hall]].
        cbn [map]. rewrite <- app_assoc. reflexivity.
      * apply IH in H as (-> & Hall).
        split; [reflexivity | constructor; [eexists; reflexivity | exact Hall]].
    + apply IH in H as (-> & Hall).
      split; [reflexivity | constructor; [eexists; reflexivity | exact Hall]].
Qed.

(* ================================================================== *)
(** ** What an accepted record looks like *)

Lemma process_entry_accepted (entry : pyval) (lang_code : string) (r : extracted) :
  process_entry entry lang_code = Ok (Some r) ->
  exists kv sense_items trans_items,
    entry = PDict kv
    /\ ex_word r = field_or "word" (PStr "") entry
    /\ truthy (ex_word r) = true
    /\ ex_pos r = field_or "pos" (PStr "") entry
    /\ resolve_etymology entry = Ok (ex_etymology_text r)
    /\ py_iter (field_or "senses" (PList []) entry) = Ok sense_items
    /\ senses_loop sense_items [] = Ok (ex_senses_data r)
    /\ ex_senses_data r <> []
    /\ py_iter (field_or "translations" (PList []) entry) = Ok trans_items
    /\ translations_loop (allow_list lang_code) trans_items []
       = Ok (ex_translations r).
Proof.
  unfold process_entry. intros H.
  apply bind_ok in H as (word & Hw & H).
  apply py_get_ok in Hw as ((kv & ->) & ->).
  destruct (truthy (field_or "word" (PStr "") (PDict kv))) eqn:Hword;
    cbn [negb] in H; [|discriminate].
  rewrite py_get_dict in H. cbn [bind] in H.
  apply bind_ok in H as (ety & Hety & H).
  rewrite py_get_dict in H. cbn [bind] in H.
  apply bind_ok in H as (sense_items & Hsi & H).
  apply bind_ok in H as (sd & Hsd & H).
  destruct sd as [|s0 sd]; [discriminate|].
  rewrite py_get_dict in H. cbn [bind] in H.
  apply bind_ok in H as (trans_items & Hti & H).
  apply bind_ok in H as (rel & Hrel & H).
  injection H as <-. cbn.
  exists kv, sense_items, trans_items.
  repeat split; try assumption; try reflexivity. discriminate.
Qed.

(** Acceptance forces the sense list to be a list of sense objects. *)
Lemma accepted_senses (entry : pyval) (lang_code : string) (r : extracted) :
  process_entry entry lang_code = Ok (Some r) ->
  exists l,
    field "senses" entry = Some (PList l)
    /\ Forall (fun s => exists kv, s = PDict kv) l
    /\ map fst (ex_senses_data r) = flat_map first_gloss l.
Proof.
  intros H.
  apply process_entry_accepted in H
    as (kv & items & titems & -> & _ & _ & _ & _ & Hit & Hloop & Hne & _).
  apply senses_loop_spec in Hloop as (Hsd & Hall). cbn [app] in Hsd.
  assert (Hmap : map fst (ex_senses_data r) = flat_map first_gloss items).
  { rewrite Hsd, map_map. cbn [fst]. apply map_id. }
  unfold field_or in Hit.
  destruct (field "senses" (PDict kv)) as [v|] eqn:Hf.
  - destruct v as [| | | |s|l|kv']; try discriminate Hit.
    + (* a string of senses: its characters are not sense objects *)
      cbn in Hit. injection Hit as <-.
      destruct s as [|c s]; [now rewrite Hsd in Hne|].
      inversion Hall as [|? ? (kv' & Hkv') _]. discriminate Hkv'.
    + cbn in Hit. injection Hit as <-. exists l. now repeat split.
    + (* a mapping of senses: its keys are not sense objects *)
      cbn in Hit. injection Hit as <-.
      destruct kv' as [|p kv']; [now rewrite Hsd in Hne|].
      inversion Hall as [|? ? (kv'' & Hkv') _]. discriminate Hkv'.
  - cbn in Hit. injection Hit as <-. now rewrite Hsd in Hne.
Qed.

(** Acceptance forces the translations to be translation objects. *)
Lemma accepted_translations (entry : pyval) (lang_code : string) (r : extracted) :
  process_entry entry lang_code = Ok (Some r) ->
  exists l,
    elements (field_or "translations" (PList []) entry) = l
    /\ Forall (fun t => exists kv, t = PDict kv) l
    /\ ex_translations r = map translation_of (filter (kept lang_code) l).
Proof.
  intros H.
  apply process_entry_accepted in H
    as (kv & items & titems & -> & _ & _ & _ & _ & _ & _ & _ & Hit & Hloop).
  apply translations_loop_spec in Hloop as (Hrel & Hall). cbn [app] in Hrel.
  fold (kept lang_code) in Hrel.
  destruct (field_or "translations" (PList []) (PDict kv))
    as [| | | |s|l|kv'] eqn:Hf; try discriminate Hit;
    cbn in Hit; injection Hit as <-.
  - destruct s as [|c s].
    + exists []. now repeat split.
    + inversion Hall as [|? ? (kv' & Hkv') _]. discriminate Hkv'.
  - exists l. now repeat split.
  - destruct kv' as [|p kv'].
    + exists []. now repeat split.
    + inversion Hall as [|? ? (kv'' & Hkv') _]. discriminate Hkv'.
Qed.

(* ================================================================== *)
(** ** Rows added for an accepted record *)

Lemma add_senses_spec (sd : list (pyval * list translation)) (wid : Z)
    (pos ety : pyval) :
  forall batch sid,
    add_senses sd wid pos ety batch sid
    = (batch ++ sense_rows (map fst sd) wid pos ety sid,
       sid + Z.of_nat (List.length sd)).
Proof.
  induction sd as [|[g tr] sd IH]; intros batch sid.
  - cbn. now rewrite app_nil_r, Z.add_0_r.
  - cbn [add_senses map fst sense_rows List.length]. rewrite IH.
    rewrite <- app_assoc. cbn [app]. f_equal. lia.
Qed.

Lemma add_translations_spec (trs : list translation) (fsid : Z) :
  forall batch,
    add_translations trs fsid batch
    = batch ++ map (fun t => (fsid, target_lang t, target_word t, roman t)) trs.
Proof.
  induction trs as [|t trs IH]; intros batch; cbn.
  - now rewrite app_nil_r.
  - rewrite IH, <- app_assoc. reflexivity.
Qed.

Lemma flush_words (c : connection) ws ss ts :
  words (flush_batches c ws ss ts) = words c ++ ws.
Proof. destruct ws; cbn; [now rewrite app_nil_r | reflexivity]. Qed.

Lemma flush_senses (c : connection) ws ss ts :
  senses (flush_batches c ws ss ts) = senses c ++ ss.
Proof. destruct ss; cbn; [now rewrite app_nil_r | reflexivity]. Qed.

Lemma flush_translations (c : connection) ws ss ts :
  translations (flush_batches c ws ss ts) = translations c ++ ts.
Proof. destruct ts; cbn; [now rewrite app_nil_r | reflexivity]. Qed.

Lemma flush_commits (c : connection) ws ss ts :
  commits (flush_batches c ws ss ts) = S (commits c).
Proof. reflexivity. Qed.

(** Whether or not the batches are flushed, the rows of the record join
    the rows stored or pending, and the cursors advance. *)
Lemma add_entry_spec (lang_code : string) (r : extracted) (st : loop_state) :
  let st' := add_entry lang_code r st in
  all_words st' = all_words st ++ [(word_id st, ex_word r, lang_code)]
  /\ all_senses st' = all_senses st ++ entry_sense_rows r (word_id st) (sense_id st)
  /\ all_translations st' = all_translations st ++ entry_trans_rows r (sense_id st)
  /\ word_id st' = word_id st + 1
  /\ sense_id st' = sense_id st + Z.of_nat (List.length (ex_senses_data r))
  /\ entry_count st' = entry_count st + 1
  /\ calls st' = calls st.
Proof.
  unfold add_entry. rewrite add_senses_spec, add_translations_spec.
  fold (entry_sense_rows r (word_id st) (sense_id st)).
  fold (entry_trans_rows r (sense_id st)).
  destruct ((entry_count st + 1) mod BATCH_SIZE =? 0);
    unfold all_words, all_senses, all_translations; cbn -[flush_batches];
    rewrite ?flush_words, ?flush_senses, ?flush_translations, ?app_nil_r, ?app_assoc;
    repeat split; reflexivity.
Qed.

Lemma expected_rows_nil (lang_code : string) (wid sid : Z) :
  expected_rows lang_code [] wid sid = ([], [], []).
Proof. reflexivity. Qed.

Lemma expected_accepted (lang_code : string) (e : pyval) (es : list pyval)
    (r : extracted) (wid sid : Z) :
  process_entry e lang_code = Ok (Some r) ->
  expected_words lang_code (e :: es) wid sid
  = (wid, ex_word r, lang_code)
      :: expected_words lang_code es (wid + 1)
           (sid + Z.of_nat (List.length (ex_senses_data r)))
  /\ expected_senses lang_code (e :: es) wid sid
     = entry_sense_rows r wid sid
         ++ expected_senses lang_code es (wid + 1)
              (sid + Z.of_nat (List.length (ex_senses_data r)))
  /\ expected_translations lang_code (e :: es) wid sid
     = entry_trans_rows r sid
         ++ expected_translations lang_code es (wid + 1)
              (sid + Z.of_nat (List.length (ex_senses_data r))).
Proof.
  intros H. unfold expected_words, expected_senses, expected_translations.
  cbn [expected_rows]. rewrite H.
  destruct (expected_rows lang_code es (wid + 1)
              (sid + Z.of_nat (List.length (ex_senses_data r)))) as [[ws ss] ts].
  repeat split; reflexivity.
Qed.

Lemma expected_rejected (lang_code : string) (e : pyval) (es : list pyval)
    (wid sid : Z) :
  process_entry e lang_code = Ok None ->
  expected_rows lang_code (e :: es) wid sid = expected_rows lang_code es wid sid.
Proof. intros H. cbn [expected_rows]. now rewrite H. Qed.

Lemma sense_rows_length (gl : list pyval) (wid : Z) (pos ety : pyval) :
  forall sid, List.length (sense_rows gl wid pos ety sid) = List.length gl.
Proof. induction gl as [|g gl IH]; intros sid; cbn; [reflexivity | now rewrite IH]. Qed.

Lemma entry_sense_rows_length (r : extracted) (wid sid : Z) :
  List.length (entry_sense_rows r wid sid) = List.length (ex_senses_data r).
Proof. unfold entry_sense_rows. now rewrite sense_rows_length, length_map. Qed.

(** The columns of the definition rows of a record. *)
Lemma sense_rows_columns (gl : list pyval) (wid : Z) (pos ety : pyval) :
  forall sid row,
    In row (sense_rows gl wid pos ety sid) ->
    sense_row_word_id row = wid
    /\ sense_row_pos row = pos
    /\ sense_row_etymology row = ety
    /\ In (sense_row_gloss row) gl
    /\ sid <= sense_row_id row < sid + Z.of_nat (List.length gl).
Proof.
  induction gl as [|g gl IH]; intros sid row Hin; cbn in Hin; [contradiction|].
  destruct Hin as [<- | Hin].
  - cbn. repeat split; try reflexivity; try lia. now left.
  - apply IH in Hin as (Hw & Hp & He & Hg & Hid).
    cbn [List.length]. repeat split; try assumption; try lia. now right.
Qed.

Lemma sense_rows_glosses (gl : list pyval) (wid : Z) (pos ety : pyval) :
  forall sid, map sense_row_gloss (sense_rows gl wid pos ety sid) = gl.
Proof. induction gl as [|g gl IH]; intros sid; cbn; [reflexivity | now rewrite IH]. Qed.

(* ================================================================== *)
(** ** The per-file loop *)

Lemma handed_mono (json_loads : string -> option pyval) (lang_code : string)
    (l1 l2 : list string) (e : pyval) :
  (forall l, In l l1 -> In l l2) ->
  handed json_loads lang_code l1 e -> handed json_loads lang_code l2 e.
Proof. intros Hsub (line & Hin & H). exists line. split; [auto | exact H]. Qed.

Section Loop.

Variable json_loads : string -> option pyval.
Variable lang_code : string.

Lemma loop_body_step (st st' : loop_state) (line_num : Z) (line : string) :
  loop_body json_loads lang_code st line_num line = Ok st' ->
  step json_loads lang_code st line_num line st'.
Proof.
  unfold loop_body. intros H.
  destruct (py_strip line =? "")%string eqn:Hblank.
  { injection H as <-. constructor. }
  apply String.eqb_neq in Hblank.
  destruct (json_loads (py_strip line)) as [entry|] eqn:Hdec.
  2:{ injection H as <-. constructor. }
  apply bind_ok in H as (entry_lang & Hl & H).
  apply py_get_ok in Hl as (_ & ->).
  destruct (py_eq_str (field_or "lang_code" (PStr "") entry) lang_code) eqn:Heq;
    cbn [negb] in H.
  2:{ injection H as <-. constructor. }
  apply py_eq_str_true in Heq.
  assert (Hh : handed json_loads lang_code [line] entry).
  { exists line. split; [now left | now repeat split]. }
  apply bind_ok in H as (res & Hres & H).
  destruct res as [r|]; injection H as <-.
  - now apply step_accept.
  - now apply step_reject.
Qed.


(** An invariant of the iterations is an invariant of the loop. *)
Lemma run_lines_invariant (P : loop_state -> Prop) :
  (forall st n line st',
      P st -> step json_loads lang_code st n line st' -> P st') ->
  forall lines n st st',
    P st -> run_lines json_loads lang_code lines n st = Ok st' -> P st'.
Proof.
  intros Hstep. induction lines as [|line rest IH]; intros n st st' HP H; cbn in H.
  - now injection H as <-.
  - apply bind_ok in H as (st1 & H1 & H).
    apply loop_body_step in H1. eauto.
Qed.

(** The rows of the loop are the rows of the records it handed to the
    extractor. *)
Lemma step_rows (st st' : loop_state) (n : Z) (line : string) :
  step json_loads lang_code st n line st' ->
  exists es,
    calls st' = calls st ++ es
    /\ Forall (handed json_loads lang_code [line]) es
    /\ all_words st'
       = all_words st ++ expected_words lang_code es (word_id st) (sense_id st)
    /\ all_senses st'
       = all_senses st ++ expected_senses lang_code es (word_id st) (sense_id st)
    /\ all_translations st'
       = all_translations st
           ++ expected_translations lang_code es (word_id st) (sense_id st)
    /\ word_id st'
       = word_id st
         + Z.of_nat (List.length
                       (expected_words lang_code es (word_id st) (sense_id st)))
    /\ sense_id st'
       = sense_id st
         + Z.of_nat (List.length
                       (expected_senses lang_code es (word_id st) (sense_id st)))
    /\ entry_count st'
       = entry_count st
         + Z.of_nat (List.length
                       (expected_words lang_code es (word_id st) (sense_id st))).
Proof.
  intros [ | | entry Hh Hrej | entry r Hh Hacc].
  - exists []. cbn. rewrite !app_nil_r, !Z.add_0_r. now repeat split.
  - exists []. cbn. rewrite !app_nil_r, !Z.add_0_r. now repeat split.
  - exists [entry].
    unfold expected_words, expected_senses, expected_translations.
    rewrite (expected_rejected _ _ _ _ _ Hrej), expected_rows_nil.
    cbn. rewrite !app_nil_r, !Z.add_0_r.
    repeat split; try reflexivity. now constructor.
  - exists [entry].
    destruct (expected_accepted lang_code entry [] r (word_id st) (sense_id st) Hacc)
      as (-> & -> & ->).
    unfold expected_words, expected_senses, expected_translations.
    rewrite !expected_rows_nil. cbn [fst snd]. rewrite !app_nil_r.
    pose proof (add_entry_spec lang_code r (log_call entry st)) as Hadd.
    cbv zeta in Hadd.
    destruct Hadd as (Hw & Hs & Ht & Hwid & Hsid & Hec & Hcalls).
    rewrite entry_sense_rows_length.
    repeat split; try assumption. now constructor.
Qed.

Lemma expected_app (es1 : list pyval) :
  forall es2 wid sid,
    let wid' := wid + Z.of_nat (List.length (expected_words lang_code es1 wid sid)) in
    let sid' := sid + Z.of_nat (List.length (expected_senses lang_code es1 wid sid)) in
    expected_words lang_code (es1 ++ es2) wid sid
    = expected_words lang_code es1 wid sid
        ++ expected_words lang_code es2 wid' sid'
    /\ expected_senses lang_code (es1 ++ es2) wid sid
       = expected_senses lang_code es1 wid sid
           ++ expected_senses lang_code es2 wid' sid'
    /\ expected_translations lang_code (es1 ++ es2) wid sid
       = expected_translations lang_code es1 wid sid
           ++ expected_translations lang_code es2 wid' sid'.
Proof.
  induction es1 as [|e es1 IH]; intros es2 wid sid wid' sid'.
  - subst wid' sid'. cbn. rewrite !Z.add_0_r. now repeat split.
  - destruct (process_entry e lang_code) as [[r|]|ex] eqn:He.
    + destruct (expected_accepted lang_code e (es1 ++ es2) r wid sid He)
        as (Ew & Es & Et).
      destruct (expected_accepted lang_code e es1 r wid sid He) as (Ew1 & Es1 & Et1).
      cbn [app]. rewrite Ew, Es, Et.
      subst wid' sid'. rewrite Ew1, Es1, Et1.
      specialize (IH es2 (wid + 1)
                    (sid + Z.of_nat (List.length (ex_senses_data r)))).
      cbv zeta in IH. destruct IH as (-> & -> & ->).
      cbn [List.length]. rewrite length_app, entry_sense_rows_length.
      rewrite <- !app_assoc. cbn [app].
      replace (wid + Z.of_nat
                 (S (List.length
                       (expected_words lang_code es1 (wid + 1)
                          (sid + Z.of_nat (List.length (ex_senses_data r)))))))
        with (wid + 1
              + Z.of_nat
                  (List.length
                     (expected_words lang_code es1 (wid + 1)
                        (sid + Z.of_nat (List.length (ex_senses_data r))))))
        by lia.
      replace (sid + Z.of_nat
                 (List.length (ex_senses_data r)
                  + List.length
                      (expected_senses lang_code es1 (wid + 1)
                         (sid + Z.of_nat (List.length (ex_senses_data r))))))
        with (sid + Z.of_nat (List.length (ex_senses_data r))
              + Z.of_nat
                  (List.length
                     (expected_senses lang_code es1 (wid + 1)
                        (sid + Z.of_nat (List.length (ex_senses_data r))))))
        by lia.
      now repeat split.
    + assert (E : forall l, expected_rows lang_code (e :: l) wid sid
                            = expected_rows lang_code l wid sid).
      { intros l. cbn [expected_rows]. now rewrite He. }
      subst wid' sid'.
      unfold expected_words, expected_senses, expected_translations in *.
      cbn [app]. rewrite !E. apply IH.
    + assert (E : forall l, expected_rows lang_code (e :: l) wid sid
                            = expected_rows lang_code l wid sid).
      { intros l. cbn [expected_rows]. now rewrite He. }
      subst wid' sid'.
      unfold expected_words, expected_senses, expected_translations in *.
      cbn [app]. rewrite !E. apply IH.
Qed.

Lemma run_lines_rows (lines : list string) :
  forall n st st',
    run_lines json_loads lang_code lines n st = Ok st' ->
    exists es,
      calls st' = calls st ++ es
      /\ Forall (handed json_loads lang_code lines) es
      /\ all_words st'
         = all_words st ++ expected_words lang_code es (word_id st) (sense_id st)
      /\ all_senses st'
         = all_senses st ++ expected_senses lang_code es (word_id st) (sense_id st)
      /\ all_translations st'
         = all_translations st
             ++ expected_translations lang_code es (word_id st) (sense_id st)
      /\ word_id st'
         = word_id st
           + Z.of_nat (List.length
                         (expected_words lang_code es (word_id st) (sense_id st)))
      /\ sense_id st'
         = sense_id st
           + Z.of_nat (List.length
                         (expected_senses lang_code es (word_id st) (sense_id st)))
      /\ entry_count st'
         = entry_count st
           + Z.of_nat (List.length
                         (expected_words lang_code es (word_id st) (sense_id st))).
Proof.
  induction lines as [|line rest IH]; intros n st st' H; cbn in H.
  - injection H as <-. exists []. cbn. rewrite !app_nil_r, !Z.add_0_r.
    now repeat split.
  - apply bind_ok in H as (st1 & H1 & H).
    apply loop_body_step, step_rows in H1
      as (es1 & Hc1 & Hh1 & Hw1 & Hs1 & Ht1 & Hwid1 & Hsid1 & Hec1).
    apply IH in H as (es2 & Hc2 & Hh2 & Hw2 & Hs2 & Ht2 & Hwid2 & Hsid2 & Hec2).
    exists (es1 ++ es2).
    destruct (expected_app es1 es2 (word_id st) (sense_id st)) as (Ew & Es & Et).
    rewrite <- Hwid1, <- Hsid1 in Ew, Es, Et.
    rewrite Ew, Es, Et, !length_app, !Nat2Z.inj_add, !app_assoc.
    rewrite <- Hw1, <- Hs1, <- Ht1.
    repeat split; try assumption; try lia.
    + now rewrite Hc2, Hc1.
    + apply Forall_app. split.
      * eapply Forall_impl; [|exact Hh1]. intros e. apply handed_mono.
        intros l [<- | []]. now left.
      * eapply Forall_impl; [|exact Hh2]. intros e. apply handed_mono.
        intros l Hl. now right.
Qed.

End Loop.

(* ================================================================== *)
(** ** Identifiers of the rows of a run *)

Lemma expected_words_ids (lang_code : string) (es : list pyval) :
  forall wid sid row,
    In row (expected_words lang_code es wid sid) ->
    wid <= word_row_id row
        < wid + Z.of_nat (List.length (expected_words lang_code es wid sid)).
Proof.
  induction es as [|e es IH]; intros wid sid row Hin.
  - contradiction.
  - destruct (process_entry e lang_code) as [[r|]|ex] eqn:He.
    + destruct (expected_accepted lang_code e es r wid sid He) as (Ew & _ & _).
      rewrite Ew in Hin |- *. cbn [List.length]. destruct Hin as [<- | Hin].
      * cbn. lia.
      * apply IH in Hin. lia.
    + unfold expected_words in *. cbn [expected_rows] in Hin |- *.
      rewrite He in Hin |- *. now apply IH.
    + unfold expected_words in *. cbn [expected_rows] in Hin |- *.
      rewrite He in Hin |- *. now apply IH.
Qed.

Lemma expected_senses_ids (lang_code : string) (es : list pyval) :
  forall wid sid row,
    In row (expected_senses lang_code es wid sid) ->
    sid <= sense_row_id row
        < sid + Z.of_nat (List.length (expected_senses lang_code es wid sid)).
Proof.
  induction es as [|e es IH]; intros wid sid row Hin.
  - contradiction.
  - destruct (process_entry e lang_code) as [[r|]|ex] eqn:He.
    + destruct (expected_accepted lang_code e es r wid sid He) as (_ & Es & _).
      rewrite Es in Hin |- *. rewrite length_app, entry_sense_rows_length.
      apply in_app_or in Hin as [Hin | Hin].
      * apply sense_rows_columns in Hin as (_ & _ & _ & _ & Hid).
        rewrite length_map in Hid. lia.
      * apply IH in Hin. lia.
    + unfold expected_senses in *. cbn [expected_rows] in Hin |- *.
      rewrite He in Hin |- *. now apply IH.
    + unfold expected_senses in *. cbn [expected_rows] in Hin |- *.
      rewrite He in Hin |- *. now apply IH.
Qed.

Lemma count_from_app (a : nat) :
  forall start b,
    count_from start (a + b)
    = count_from start a ++ count_from (start + Z.of_nat a) b.
Proof.
  induction a as [|a IH]; intros start b.
  - cbn. now rewrite Z.add_0_r.
  - cbn [Nat.add count_from app]. rewrite IH. do 3 f_equal. lia.
Qed.

Lemma count_from_bounds (n : nat) :
  forall start x, In x (count_from start n) -> start <= x < start + Z.of_nat n.
Proof.
  induction n as [|n IH]; intros start x Hin; [contradiction|].
  destruct Hin as [<- | Hin]; [lia|]. apply IH in Hin. lia.
Qed.

Lemma count_from_NoDup (n : nat) : forall start, NoDup (count_from start n).
Proof.
  induction n as [|n IH]; intros start; cbn; constructor; [|apply IH].
  intros Hin. apply count_from_bounds in Hin. lia.
Qed.

Lemma sense_rows_ids (gl : list pyval) (wid : Z) (pos ety : pyval) :
  forall sid,
    map sense_row_id (sense_rows gl wid pos ety sid)
    = count_from sid (List.length gl).
Proof.
  induction gl as [|g gl IH]; intros sid; cbn; [reflexivity | now rewrite IH].
Qed.

(** The identifiers of the rows of a run are consecutive. *)
Lemma expected_words_consecutive (lang_code : string) (es : list pyval) :
  forall wid sid,
    map word_row_id (expected_words lang_code es wid sid)
    = count_from wid (List.length (expected_words lang_code es wid sid)).
Proof.
  induction es as [|e es IH]; intros wid sid; [reflexivity|].
  destruct (process_entry e lang_code) as [[r|]|ex] eqn:He.
  - destruct (expected_accepted lang_code e es r wid sid He) as (-> & _ & _).
    cbn. now rewrite IH.
  - unfold expected_words in *. cbn [expected_rows]. rewrite He. apply IH.
  - unfold expected_words in *. cbn [expected_rows]. rewrite He. apply IH.
Qed.

Lemma expected_senses_consecutive (lang_code : string) (es : list pyval) :
  forall wid sid,
    map sense_row_id (expected_senses lang_code es wid sid)
    = count_from sid (List.length (expected_senses lang_code es wid sid)).
Proof.
  induction es as [|e es IH]; intros wid sid; [reflexivity|].
  destruct (process_entry e lang_code) as [[r|]|ex] eqn:He.
  - destruct (expected_accepted lang_code e es r wid sid He) as (_ & -> & _).
    rewrite map_app, length_app, count_from_app, IH.
    unfold entry_sense_rows at 1. rewrite sense_rows_ids, length_map.
    now rewrite entry_sense_rows_length.
  - unfold expected_senses in *. cbn [expected_rows]. rewrite He. apply IH.
  - unfold expected_senses in *. cbn [expected_rows]. rewrite He. apply IH.
Qed.

(* ================================================================== *)
(** ** Flushing *)

Lemma final_flush_spec (st : loop_state) :
  let st' := final_flush st in
  words (conn st') = all_words st
  /\ senses (conn st') = all_senses st
  /\ translations (conn st') = all_translations st
  /\ word_id st' = word_id st
  /\ sense_id st' = sense_id st
  /\ entry_count st' = entry_count st
  /\ calls st' = calls st
  /\ stdout st' = stdout st.
Proof.
  unfold final_flush, all_words, all_senses, all_translations.
  destruct (words_batch st) as [|w ws] eqn:Hw;
    destruct (senses_batch st) as [|s ss] eqn:Hs;
    destruct (trans_batch st) as [|t ts] eqn:Ht;
    cbn -[flush_batches];
    rewrite ?flush_words, ?flush_senses, ?flush_translations, ?Hw, ?Hs, ?Ht,
      ?app_nil_r;
    repeat split; reflexivity.
Qed.

Lemma final_flush_empty (st : loop_state) :
  words_batch st = [] -> senses_batch st = [] -> trans_batch st = [] ->
  final_flush st = st.
Proof. intros Hw Hs Ht. unfold final_flush. now rewrite Hw, Hs, Ht. Qed.

Lemma div_succ_boundary (n : Z) :
  0 <= n -> (n + 1) mod BATCH_SIZE = 0 ->
  (n + 1) / BATCH_SIZE = n / BATCH_SIZE + 1.
Proof. unfold BATCH_SIZE. intros Hn Hm. Z.div_mod_to_equations. lia. Qed.

Lemma div_succ_inside (n : Z) :
  0 <= n -> (n + 1) mod BATCH_SIZE <> 0 ->
  (n + 1) / BATCH_SIZE = n / BATCH_SIZE.
Proof. unfold BATCH_SIZE. intros Hn Hm. Z.div_mod_to_equations. lia. Qed.

Lemma batch_inv_step (json_loads : string -> option pyval) (lang_code : string)
    (commits0 : nat) (st st' : loop_state) (n : Z) (line : string) :
  batch_inv commits0 st -> step json_loads lang_code st n line st' ->
  batch_inv commits0 st'.
Proof.
  intros (Hpos & Hcom & Hemp) [ | | entry Hh Hrej | entry r Hh Hacc];
    try (split; [|split]; assumption).
  unfold batch_inv, add_entry.
  rewrite add_senses_spec. cbn [log_call entry_count conn words_batch
    senses_batch trans_batch word_id sense_id stdout calls].
  destruct ((entry_count st + 1) mod BATCH_SIZE =? 0) eqn:Hm.
  - apply Z.eqb_eq in Hm.
    cbn -[flush_batches Z.div Z.modulo]. rewrite flush_commits, Hcom.
    rewrite (div_succ_boundary _ Hpos Hm).
    assert (0 <= entry_count st / BATCH_SIZE)
      by (apply Z.div_pos; [assumption | reflexivity]).
    split; [lia|]. split; [|now repeat split].
    rewrite Z2Nat.inj_add by lia. cbn. lia.
  - apply Z.eqb_neq in Hm.
    cbn -[Z.div Z.modulo]. rewrite (div_succ_inside _ Hpos Hm).
    split; [lia|]. split; [assumption | contradiction].
Qed.

(* ================================================================== *)
(** ** [process_file] as a whole *)

Section File.

Variable json_loads : string -> option pyval.

Lemma process_file_inv (c : connection) (out : list message) (log : list pyval)
    (name : string) (lines : list string) (lang_code : string)
    (sw ss : Z) (st' : loop_state) :
  process_file json_loads c out log name lines lang_code sw ss = Ok st' ->
  exists st1,
    run_lines json_loads lang_code lines 1
      (print (MsgProcessing name lang_code) (start_state c out log sw ss)) = Ok st1
    /\ st' = print (MsgCompleted (entry_count st1)) (final_flush st1).
Proof.
  unfold process_file. intros H.
  apply bind_ok in H as (st1 & H1 & H). injection H as <-.
  exists st1. split; [exact H1|].
  destruct (final_flush_spec st1) as (_ & _ & _ & _ & _ & -> & _). reflexivity.
Qed.

(** The tables after a file: the rows they had, then the rows of the
    records handed to the extractor, each once and in order. *)
Lemma process_file_rows (c : connection) (out : list message) (log : list pyval)
    (name : string) (lines : list string) (lang_code : string)
    (sw ss : Z) (st' : loop_state) :
  process_file json_loads c out log name lines lang_code sw ss = Ok st' ->
  exists es,
    calls st' = log ++ es
    /\ Forall (handed json_loads lang_code lines) es
    /\ words (conn st') = words c ++ expected_words lang_code es sw ss
    /\ senses (conn st') = senses c ++ expected_senses lang_code es sw ss
    /\ translations (conn st')
       = translations c ++ expected_translations lang_code es sw ss
    /\ word_id st'
       = sw + Z.of_nat (List.length (expected_words lang_code es sw ss))
    /\ sense_id st'
       = ss + Z.of_nat (List.length (expected_senses lang_code es sw ss))
    /\ entry_count st'
       = Z.of_nat (List.length (expected_words lang_code es sw ss)).
Proof.
  intros H. apply process_file_inv in H as (st1 & Hrun & ->).
  apply run_lines_rows in Hrun
    as (es & Hc & Hh & Hw & Hs & Ht & Hwid & Hsid & Hec).
  destruct (final_flush_spec st1) as (Fw & Fs & Ft & Fwid & Fsid & Fec & Fc & _).
  exists es. cbn [print conn calls word_id sense_id entry_count].
  rewrite Fw, Fs, Ft, Fwid, Fsid, Fec, Fc.
  unfold all_words, all_senses, all_translations in Hw, Hs, Ht.
  cbn in Hc, Hw, Hs, Ht, Hwid, Hsid, Hec.
  rewrite !app_nil_r in *.
  repeat split; assumption.
Qed.

End File.

(* ================================================================== *)
(** ** The end-to-end scenario *)

(** C1.  The line of the scenario, processed as language "en" into a
    fresh database, gives exactly one entry row ("cat", "en"), exactly one
    definition row (pos "noun", gloss "a small domesticated feline") owned
    by that entry, and exactly one cross-reference row (target language
    "es", target text "gato", romanization null) that carries the
    identifier of that definition row. *)
Theorem cat_scenario (json_loads : string -> option pyval) (line name : string)
    (out : list message) (log : list pyval) (sw ss : Z) :
  py_strip line = cat_line ->
  json_loads cat_line = Some cat_entry ->
  exists st,
    process_file json_loads (create_schema connect) out log name [line] "en" sw ss
    = Ok st
    /\ words (conn st) = [(sw, PStr "cat", "en")]
    /\ senses (conn st)
       = [(ss, sw, PStr "noun", PStr "a small domesticated feline", PNone)]
    /\ translations (conn st) = [(ss, PStr "es", PStr "gato", PNone)]
    /\ (word_id st, sense_id st, entry_count st) = (sw + 1, ss + 1, 1).
Proof.
  intros Hstrip Hdec.
  unfold process_file. cbn [run_lines bind]. unfold loop_body.
  rewrite Hstrip, Hdec.
  replace (cat_line =? "")%string with false by (vm_compute; reflexivity).
  eexists. split; [reflexivity|].
  cbn. repeat split; reflexivity.
Qed.

Lemma cat_scenario_witness :
  exists st,
    process_file simple_json_loads (create_schema connect) [] [] "en.jsonl"
      [(cat_line ++ newline)%string] "en" 1 1
    = Ok st
    /\ words (conn st) = [(1, PStr "cat", "en")]
    /\ senses (conn st)
       = [(1, 1, PStr "noun", PStr "a small domesticated feline", PNone)]
    /\ translations (conn st) = [(1, PStr "es", PStr "gato", PNone)]
    /\ (word_id st, sense_id st, entry_count st) = (1 + 1, 1 + 1, 1).
Proof.
  apply (cat_scenario simple_json_loads (cat_line ++ newline)%string "en.jsonl"
           [] [] 1 1); vm_compute; reflexivity.
Defined.

(* ================================================================== *)
(** ** Records of another language *)

(** C8.  A decoded record whose declared language code differs from the
    language being processed leaves the whole state of the loop as it
    was: the log of the records handed to the extractor does not grow
    (the extractor is not invoked), no row is stored or made pending and
    the cursors keep their values.  In particular the "cat" line,
    processed for language "es", yields no row and no call. *)
Theorem other_language_inert (json_loads : string -> option pyval)
    (lang_code : string) :
  (forall (st : loop_state) (line_num : Z) (line : string)
          (kv : list (string * pyval)),
      json_loads (py_strip line) = Some (PDict kv) ->
      field_or "lang_code" (PStr "") (PDict kv) <> PStr lang_code ->
      loop_body json_loads lang_code st line_num line = Ok st)
  /\ (forall (line name : string) (out : list message) (log : list pyval)
             (sw ss : Z),
         py_strip line = cat_line ->
         json_loads cat_line = Some cat_entry ->
         exists st,
           process_file json_loads (create_schema connect) out log name [line]
             "es" sw ss = Ok st
           /\ words (conn st) = []
           /\ senses (conn st) = []
           /\ translations (conn st) = []
           /\ calls st = log
           /\ (word_id st, sense_id st, entry_count st) = (sw, ss, 0)).
Proof.
  split.
  - intros st line_num line kv Hdec Hlang. unfold loop_body.
    destruct (py_strip line =? "")%string; [reflexivity|].
    rewrite Hdec, py_get_dict. cbn [bind].
    apply py_eq_str_false in Hlang. now rewrite Hlang.
  - intros line name out log sw ss Hstrip Hdec.
    unfold process_file. cbn [run_lines bind]. unfold loop_body.
    rewrite Hstrip, Hdec.
    replace (cat_line =? "")%string with false by (vm_compute; reflexivity).
    eexists. split; [reflexivity|].
    cbn. repeat split; reflexivity.
Qed.

Lemma other_language_inert_witness :
  loop_body simple_json_loads "es" (start_state (create_schema connect) [] [] 1 1)
    1 (cat_line ++ newline)%string
  = Ok (start_state (create_schema connect) [] [] 1 1)
  /\ exists st,
       process_file simple_json_loads (create_schema connect) [] [] "es.jsonl"
         [(cat_line ++ newline)%string] "es" 1 1 = Ok st
       /\ words (conn st) = []
       /\ senses (conn st) = []
       /\ translations (conn st) = []
       /\ calls st = []
       /\ (word_id st, sense_id st, entry_count st) = (1, 1, 0).
Proof.
  split.
  - apply (proj1 (other_language_inert simple_json_loads "es")
             (start_state (create_schema connect) [] [] 1 1) 1
             (cat_line ++ newline)%string
             [ ("word", PStr "cat"); ("lang_code", PStr "en");
               ("pos", PStr "noun");
               ("senses",
                PList [PDict [("glosses",
                               PList [PStr "a small domesticated feline"])]]);
               ("translations",
                PList [PDict [("lang_code", PStr "es"); ("word", PStr "gato")]]) ]).
    + vm_compute; reflexivity.
    + vm_compute; discriminate.
  - apply (proj2 (other_language_inert simple_json_loads "es")
             (cat_line ++ newline)%string "es.jsonl" [] [] 1 1);
      vm_compute; reflexivity.
Defined.

(* ================================================================== *)
(** ** Lines that do not decode *)



(* ================================================================== *)
(** ** An accepted line *)


(** The iteration on a rejected record stores nothing. *)
Lemma loop_body_rejected (json_loads : string -> option pyval)
    (lang_code : string) (st : loop_state) (line_num : Z) (line : string)
    (kv : list (string * pyval)) :
  json_loads (py_strip line) = Some (PDict kv) ->
  process_entry (PDict kv) lang_code = Ok None ->
  exists st',
    loop_body json_loads lang_code st line_num line = Ok st'
    /\ conn st' = conn st
    /\ (words_batch st', senses_batch st', trans_batch st')
       = (words_batch st, senses_batch st, trans_batch st)
    /\ (word_id st', sense_id st', entry_count st')
       = (word_id st, sense_id st, entry_count st).
Proof.
  intros Hdec Hrej. unfold loop_body.
  destruct (py_strip line =? "")%string.
  { exists st. now repeat split. }
  rewrite Hdec, py_get_dict. cbn [bind].
  destruct (py_eq_str (field_or "lang_code" (PStr "") (PDict kv)) lang_code);
    cbn [negb].
  - rewrite Hrej. cbn [bind]. eexists. split; [reflexivity|]. now repeat split.
  - exists st. now repeat split.
Qed.

Lemma resolve_etymology_list_typed (kv : list (string * pyval)) :
  etymology_list_typed (PDict kv) -> exists e, resolve_etymology (PDict kv) = Ok e.
Proof.
  unfold etymology_list_typed, resolve_etymology. cbn [field py_in py_getitem bind].
  destruct (lookup "etymology_text" kv) as [v|]; [eexists; reflexivity|].
  destruct (lookup "etymology_texts" kv) as [v|]; [|eexists; reflexivity].
  intros (l & ->). cbn [bind]. destruct l as [|x l]; eexists; reflexivity.
Qed.

(* ================================================================== *)
(** ** Definitions of a record *)



(* ================================================================== *)
(** ** Cross-references of a record *)

Lemma allow_list_en : allow_list "en" = ["es"].
Proof. reflexivity. Qed.

Lemma allow_list_es : allow_list "es" = ["en"].
Proof. reflexivity. Qed.





(* ================================================================== *)
(** ** Etymology and part of speech *)





(* ================================================================== *)
(** ** The two files of [main] *)

(** [main] runs the English file on a fresh database from the cursors
    [(1, 1)] and the Spanish file from the cursors the first returned. *)
Lemma main_two_files (json_loads : string -> option pyval)
    (name1 name2 : string) (lines1 lines2 : list string)
    (st2 : loop_state) (total : Z) :
  main json_loads (Some (name1, lines1)) (Some (name2, lines2)) = Ok (st2, total) ->
  exists st1,
    process_file json_loads (create_schema connect) [] [] name1 lines1 "en" 1 1
    = Ok st1
    /\ process_file json_loads (conn st1) (stdout st1) (calls st1) name2 lines2
         "es" (word_id st1) (sense_id st1) = Ok st2
    /\ total = entry_count st1 + entry_count st2.
Proof.
  unfold main. intros H.
  apply bind_ok in H as ([st1 t1] & H1 & H).
  apply bind_ok in H1 as (st1' & Hf1 & H1). injection H1 as <- <-.
  apply bind_ok in H as (st2' & Hf2 & H). injection H as <- <-.
  exists st1'. cbn in Hf1, Hf2. now repeat split.
Qed.

(* ================================================================== *)
(** ** Identifiers across two files *)

Lemma accepted_has_sense (e : pyval) (lang_code : string) (r : extracted) :
  process_entry e lang_code = Ok (Some r) ->
  (0 < List.length (ex_senses_data r))%nat.
Proof.
  intros H.
  apply process_entry_accepted in H
    as (kv & si & ti & _ & _ & _ & _ & _ & _ & _ & Hne & _).
  destruct (ex_senses_data r); [contradiction | cbn; lia].
Qed.

Lemma expected_lengths (lang_code : string) (es : list pyval) :
  forall wid sid,
    (List.length (expected_words lang_code es wid sid)
     <= List.length (expected_senses lang_code es wid sid))%nat
    /\ (List.length (expected_words lang_code es wid sid) <= List.length es)%nat.
Proof.
  induction es as [|e es IH]; intros wid sid; [cbn; lia|].
  destruct (process_entry e lang_code) as [[r|]|ex] eqn:He.
  - destruct (expected_accepted lang_code e es r wid sid He) as (-> & -> & _).
    cbn [List.length]. rewrite length_app, entry_sense_rows_length.
    pose proof (accepted_has_sense e lang_code r He).
    destruct (IH (wid + 1) (sid + Z.of_nat (List.length (ex_senses_data r)))).
    lia.
  - unfold expected_words, expected_senses in *. cbn [expected_rows].
    rewrite He. destruct (IH wid sid). cbn [List.length]. lia.
  - unfold expected_words, expected_senses in *. cbn [expected_rows].
    rewrite He. destruct (IH wid sid). cbn [List.length]. lia.
Qed.

(** C6, as the code has it.  When a second file is processed from the
    cursors the first file returned, every entry row of the second file
    has an identifier above the identifier of every entry row of the
    first file, and every definition row of the second file has an
    identifier above the identifier of every definition row of the first
    file; when the first file started with its definition cursor not
    below its entry cursor, as in [main], every definition row of the
    second file also has an identifier above that of every entry row of
    the first.  Nothing is said of an entry identifier of the second
    file against a definition identifier of the first. *)
Theorem identifiers_increase_across_files (json_loads : string -> option pyval)
    (c : connection) (out : list message) (log : list pyval)
    (name1 name2 : string) (lines1 lines2 : list string)
    (lang1 lang2 : string) (sw ss : Z) (st1 st2 : loop_state) :
  process_file json_loads c out log name1 lines1 lang1 sw ss = Ok st1 ->
  process_file json_loads (conn st1) (stdout st1) (calls st1) name2 lines2 lang2
    (word_id st1) (sense_id st1) = Ok st2 ->
  exists w1 w2 s1 s2,
    words (conn st1) = words c ++ w1
    /\ words (conn st2) = words (conn st1) ++ w2
    /\ senses (conn st1) = senses c ++ s1
    /\ senses (conn st2) = senses (conn st1) ++ s2
    /\ (forall a b, In a w1 -> In b w2 -> word_row_id a < word_row_id b)
    /\ (forall a b, In a s1 -> In b s2 -> sense_row_id a < sense_row_id b)
    /\ sw <= word_id st1 <= word_id st2
    /\ ss <= sense_id st1 <= sense_id st2
    /\ (sw <= ss ->
        forall a b, In a w1 -> In b s2 -> word_row_id a < sense_row_id b).
Proof.
  intros H1 H2.
  apply process_file_rows in H1
    as (es1 & _ & _ & Hw1 & Hs1 & _ & Hwid1 & Hsid1 & _).
  apply process_file_rows in H2
    as (es2 & _ & _ & Hw2 & Hs2 & _ & Hwid2 & Hsid2 & _).
  exists (expected_words lang1 es1 sw ss),
         (expected_words lang2 es2 (word_id st1) (sense_id st1)),
         (expected_senses lang1 es1 sw ss),
         (expected_senses lang2 es2 (word_id st1) (sense_id st1)).
  split; [exact Hw1|]. split; [exact Hw2|]. split; [exact Hs1|].
  split; [exact Hs2|]. split; [|split; [|split; [lia|split; [lia|]]]].
  - intros a b Ha Hb.
    apply expected_words_ids in Ha. apply expected_words_ids in Hb. lia.
  - intros a b Ha Hb.
    apply expected_senses_ids in Ha. apply expected_senses_ids in Hb. lia.
  - intros Hle a b Ha Hb.
    apply expected_words_ids in Ha. apply expected_senses_ids in Hb.
    destruct (expected_lengths lang1 es1 sw ss) as (Hlen & _). lia.
Qed.

Lemma identifiers_increase_across_files_witness :
  let d := start_state connect [] [] 0 0 in
  let st1 :=
    run_state
      (process_file simple_json_loads (create_schema connect) [] [] "en.jsonl"
         [cat_line; gato_line; empty_gloss_line] "en" 1 1) d in
  let st2 :=
    run_state
      (process_file simple_json_loads (conn st1) (stdout st1) (calls st1)
         "es.jsonl" [gato_line; cat_line] "es" (word_id st1) (sense_id st1)) d in
  exists w1 w2 s1 s2,
    words (conn st1) = words (create_schema connect) ++ w1
    /\ words (conn st2) = words (conn st1) ++ w2
    /\ senses (conn st1) = senses (create_schema connect) ++ s1
    /\ senses (conn st2) = senses (conn st1) ++ s2
    /\ (forall a b, In a w1 -> In b w2 -> word_row_id a < word_row_id b)
    /\ (forall a b, In a s1 -> In b s2 -> sense_row_id a < sense_row_id b)
    /\ 1 <= word_id st1 <= word_id st2
    /\ 1 <= sense_id st1 <= sense_id st2
    /\ (1 <= 1 ->
        forall a b, In a w1 -> In b s2 -> word_row_id a < sense_row_id b).
Proof.
  apply (identifiers_increase_across_files simple_json_loads
           (create_schema connect) [] [] "en.jsonl" "es.jsonl"
           [cat_line; gato_line; empty_gloss_line] [gato_line; cat_line]
           "en" "es" 1 1); vm_compute; reflexivity.
Defined.

(** C6 as stated fails: after an English file whose record has two
    senses, the entry of the Spanish file gets the identifier 2, which is
    not above the identifier 2 of the second definition of the English
    file. *)
Lemma entry_identifier_not_above_definition_identifier :
  exists st1 st2 definition entry,
    process_file simple_json_loads (create_schema connect) [] [] "en.jsonl"
      [two_senses_line] "en" 1 1 = Ok st1
    /\ process_file simple_json_loads (conn st1) (stdout st1) (calls st1)
         "es.jsonl" [gato_line] "es" (word_id st1) (sense_id st1) = Ok st2
    /\ In definition (senses (conn st1))
    /\ words (conn st2) = words (conn st1) ++ [entry]
    /\ word_row_id entry <= sense_row_id definition.
Proof.
  do 2 eexists. exists (2, 1, PStr "", PStr "to put", PNone),
                       (2, PStr "gato", "es").
  split; [vm_compute; reflexivity|]. split; [vm_compute; reflexivity|].
  split; [cbn; now right; left|]. split; [reflexivity|]. cbn. lia.
Qed.

(* ================================================================== *)
(** ** Flushing at the batch boundary *)

(** C7.  A file with exactly [BATCH_SIZE] qualifying records: when the
    loop ends one flush has been committed, the automatic one, all three
    batches are empty, and the final flush changes nothing; the tables
    hold the rows they had followed by the rows of the records handed to
    the extractor, each once: the entry rows added carry the
    [BATCH_SIZE] consecutive identifiers from the start cursor, and no
    two definition rows added share an identifier. *)
Theorem one_flush_at_batch_size (json_loads : string -> option pyval)
    (c : connection) (out : list message) (log : list pyval) (name : string)
    (lines : list string) (lang_code : string) (sw ss : Z) :
  returned_count (process_file json_loads c out log name lines lang_code sw ss)
  = Some BATCH_SIZE ->
  exists st st1 es,
    process_file json_loads c out log name lines lang_code sw ss = Ok st
    /\ run_lines json_loads lang_code lines 1
         (print (MsgProcessing name lang_code) (start_state c out log sw ss))
       = Ok st1
    /\ commits (conn st1) = S (commits c)
    /\ (words_batch st1, senses_batch st1, trans_batch st1) = ([], [], [])
    /\ final_flush st1 = st1
    /\ st = print (MsgCompleted BATCH_SIZE) st1
    /\ commits (conn st) = S (commits c)
    /\ calls st = log ++ es
    /\ words (conn st) = words c ++ expected_words lang_code es sw ss
    /\ senses (conn st) = senses c ++ expected_senses lang_code es sw ss
    /\ translations (conn st)
       = translations c ++ expected_translations lang_code es sw ss
    /\ map word_row_id (expected_words lang_code es sw ss)
       = count_from sw (Z.to_nat BATCH_SIZE)
    /\ NoDup (map sense_row_id (expected_senses lang_code es sw ss)).
Proof.
  intros Hret.
  destruct (process_file json_loads c out log name lines lang_code sw ss)
    as [st|ex] eqn:H; [|discriminate Hret].
  cbn [returned_count] in Hret. injection Hret as Hcount.
  pose proof (process_file_rows json_loads _ _ _ _ _ _ _ _ _ H)
    as (es & Hc & _ & Hw & Hs & Ht & _ & _ & Hec).
  apply process_file_inv in H as (st1 & Hrun & Hst).
  assert (Hec1 : entry_count st1 = BATCH_SIZE).
  { rewrite Hst in Hcount. cbn [print entry_count] in Hcount.
    destruct (final_flush_spec st1) as (_ & _ & _ & _ & _ & Fec & _).
    now rewrite Fec in Hcount. }
  assert (Hinv : batch_inv (commits c) st1).
  { refine (run_lines_invariant json_loads lang_code (batch_inv (commits c))
              _ lines 1 _ st1 _ Hrun).
    - intros s n l s' Hs' Hstep. eapply batch_inv_step; eassumption.
    - split; [cbn; lia|]. split; [cbn; lia|]. intros _. now repeat split. }
  destruct Hinv as (_ & Hcom & Hemp). rewrite Hec1 in Hcom, Hemp.
  specialize (Hemp eq_refl). destruct Hemp as (Ew & Es & Et).
  assert (Hff : final_flush st1 = st1) by now apply final_flush_empty.
  rewrite Hff, Hec1 in Hst.
  assert (Hcom1 : commits (conn st1) = S (commits c)).
  { rewrite Hcom. change (Z.to_nat (BATCH_SIZE / BATCH_SIZE)) with 1%nat. lia. }
  exists st, st1, es.
  repeat split; try assumption.
  - now rewrite Ew, Es, Et.
  - rewrite Hst. exact Hcom1.
  - rewrite expected_words_consecutive. f_equal. lia.
  - rewrite expected_senses_consecutive. apply count_from_NoDup.
Qed.

Lemma one_flush_at_batch_size_witness :
  exists st st1 es,
    process_file simple_json_loads (create_schema connect) [] [] "en.jsonl"
      batch_file "en" 1 1 = Ok st
    /\ run_lines simple_json_loads "en" batch_file 1
         (print (MsgProcessing "en.jsonl" "en")
            (start_state (create_schema connect) [] [] 1 1))
       = Ok st1
    /\ commits (conn st1) = S (commits (create_schema connect))
    /\ (words_batch st1, senses_batch st1, trans_batch st1) = ([], [], [])
    /\ final_flush st1 = st1
    /\ st = print (MsgCompleted BATCH_SIZE) st1
    /\ commits (conn st) = S (commits (create_schema connect))
    /\ calls st = [] ++ es
    /\ words (conn st)
       = words (create_schema connect) ++ expected_words "en" es 1 1
    /\ senses (conn st)
       = senses (create_schema connect) ++ expected_senses "en" es 1 1
    /\ translations (conn st)
       = translations (create_schema connect)
           ++ expected_translations "en" es 1 1
    /\ map word_row_id (expected_words "en" es 1 1)
       = count_from 1 (Z.to_nat BATCH_SIZE)
    /\ NoDup (map sense_row_id (expected_senses "en" es 1 1)).
Proof.
  apply (one_flush_at_batch_size simple_json_loads (create_schema connect)
           [] [] "en.jsonl" batch_file "en" 1 1).
  vm_compute; reflexivity.
Defined.

(* ================================================================== *)
(** ** Two remarks on the reach of the properties *)

(** A line that decodes, but not to a mapping, is not a decode failure:
    the lookup of its language raises [AttributeError], which the loop
    does not catch. *)
Example decoded_list_raises :
  simple_json_loads list_line = Some (PList [PInt 1; PInt 2])
  /\ loop_body simple_json_loads "en"
       (start_state (create_schema connect) [] [] 1 1) 1 list_line
     = Raise AttributeError.
Proof. split; vm_compute; reflexivity. Qed.

(** Entry identifiers and definition identifiers are two sequences: the
    entry of a second file can carry the number of a definition of the
    first file. *)
Example identifier_kinds_are_separate :
  exists st1 st2,
    process_file simple_json_loads (create_schema connect) [] [] "es.jsonl"
      [gato_line] "es" 1 1 = Ok st1
    /\ process_file simple_json_loads (conn st1) (stdout st1) (calls st1)
         "en.jsonl" [cat_line] "en" (word_id st1) (sense_id st1) = Ok st2
    /\ map sense_row_id (senses (conn st1)) = [1; 2]
    /\ map word_row_id (words (conn st2)) = [1; 2].
Proof.
  do 2 eexists. split; [vm_compute; reflexivity|].
  split; [vm_compute; reflexivity|]. split; reflexivity.
Qed.

(* ================================================================== *)
(** ** The extractor on records of the documented types *)

Lemma senses_loop_typed (items : list pyval) :
  forall acc,
    Forall sense_typed items ->
    senses_loop items acc
    = Ok (acc ++ map (fun g => (g, [])) (flat_map first_gloss items)).
Proof.
  induction items as [|sense rest IH]; intros acc Hall; cbn [senses_loop flat_map].
  - cbn. now rewrite app_nil_r.
  - inversion Hall as [|? ? ((kv & ->) & Hg) Hrest]; subst.
    rewrite py_get_dict. cbn [bind].
    change (first_gloss (PDict kv)) with (firstn 1 (glosses_of (PDict kv))).
    unfold glosses_of, field_or. cbn [field] in Hg |- *.
    destruct (lookup "glosses" kv) as [v|].
    + destruct Hg as (l & ->). destruct l as [|g l]; cbn [truthy py_first bind elements firstn app map].
      * now apply IH.
      * rewrite IH by assumption. now rewrite <- app_assoc.
    + cbn. now apply IH.
Qed.

Lemma translations_loop_dicts (target_langs : list string) (items : list pyval) :
  forall acc,
    Forall is_dict items ->
    translations_loop target_langs items acc
    = Ok (acc ++ map translation_of
                   (filter (fun t => py_in_strs (trans_lang_of t) target_langs
                                     && truthy (field_or "word" (PStr "") t))
                           items)).
Proof.
  induction items as [|trans rest IH]; intros acc Hall;
    cbn [translations_loop filter].
  - cbn. now rewrite app_nil_r.
  - inversion Hall as [|? ? (kv & ->) Hrest]; subst.
    rewrite py_get_dict. cbn [bind].
    assert (Hl : (if truthy (field_or "lang_code" PNone (PDict kv))
                  then Ok (field_or "lang_code" PNone (PDict kv))
                  else py_get (PDict kv) "code" (PStr ""))
                 = Ok (trans_lang_of (PDict kv))).
    { rewrite <- trans_lang_of_dict.
      destruct (truthy (field_or "lang_code" PNone (PDict kv))); reflexivity. }
    rewrite Hl. cbn [bind].
    destruct (py_in_strs (trans_lang_of (PDict kv)) target_langs); cbn [andb].
    + rewrite py_get_dict. cbn [bind].
      destruct (truthy (field_or "word" (PStr "") (PDict kv))).
      * rewrite py_get_dict. cbn [bind]. rewrite IH by assumption.
        cbn [map]. now rewrite <- app_assoc.
      * now apply IH.
    + now apply IH.
Qed.

(** The result of the extractor on a record of the documented types. *)
Lemma process_entry_typed (entry : pyval) (lang_code : string) :
  record_typed entry ->
  exists l ety,
    sense_list entry = Some l
    /\ resolve_etymology entry = Ok ety
    /\ process_entry entry lang_code
       = Ok (if negb (truthy (field_or "word" (PStr "") entry)) then None
             else
               match flat_map first_gloss l with
               | [] => None
               | _ :: _ =>
                   Some (mkExtracted
                           (field_or "word" (PStr "") entry)
                           (field_or "pos" (PStr "") entry)
                           (map (fun g => (g, [])) (flat_map first_gloss l))
                           ety
                           (map translation_of
                              (filter (kept lang_code)
                                 (elements
                                    (field_or "translations" (PList []) entry)))))
               end).
Proof.
  intros ((kv & ->) & Hety & Hsenses & Htrans).
  destruct (resolve_etymology_list_typed kv Hety) as (ety & Hres).
  unfold list_field in Hsenses, Htrans.
  assert (Hs : exists l, sense_list (PDict kv) = Some l
                         /\ py_iter (field_or "senses" (PList []) (PDict kv)) = Ok l
                         /\ Forall sense_typed l).
  { unfold sense_list, field_or.
    destruct (field "senses" (PDict kv)) as [v|].
    - destruct Hsenses as (l & -> & Hall). exists l. now repeat split.
    - exists []. now repeat split. }
  destruct Hs as (l & Hsl & Hit & Hall).
  assert (Ht : exists tl,
             py_iter (field_or "translations" (PList []) (PDict kv)) = Ok tl
             /\ elements (field_or "translations" (PList []) (PDict kv)) = tl
             /\ Forall is_dict tl).
  { unfold field_or.
    destruct (field "translations" (PDict kv)) as [v|].
    - destruct Htrans as (tl & -> & Hall'). exists tl. now repeat split.
    - exists []. now repeat split. }
  destruct Ht as (tl & Htit & Hel & Htall).
  exists l, ety. split; [exact Hsl|]. split; [exact Hres|].
  unfold process_entry. rewrite py_get_dict. cbn [bind].
  destruct (truthy (field_or "word" (PStr "") (PDict kv))); cbn [negb];
    [|reflexivity].
  rewrite py_get_dict. cbn [bind]. rewrite Hres. cbn [bind].
  rewrite py_get_dict. cbn [bind]. rewrite Hit. cbn [bind].
  rewrite (senses_loop_typed l [] Hall). cbn [bind app].
  destruct (flat_map first_gloss l) as [|g gl]; cbn [map]; [reflexivity|].
  rewrite py_get_dict. cbn [bind]. rewrite Htit. cbn [bind].
  rewrite (translations_loop_dicts _ tl [] Htall). cbn [bind app].
  rewrite Hel. reflexivity.
Qed.

Lemma no_first_gloss (l : list pyval) :
  flat_map first_gloss l = [] <-> filter has_gloss l = [].
Proof.
  split; intros H; apply length_zero_iff_nil;
    apply (f_equal (@List.length _)) in H.
  - now rewrite <- count_first_gloss.
  - now rewrite count_first_gloss.
Qed.

(** X2.  On a record of the documented types the extractor returns: it
    raises nothing, and it rejects the record exactly when the headword
    is missing or empty or no sense of the list has a gloss. *)
Theorem typed_record_never_raises (entry : pyval) (lang_code : string) :
  record_typed entry ->
  exists l res,
    sense_list entry = Some l
    /\ process_entry entry lang_code = Ok res
    /\ (res = None <->
        truthy (field_or "word" (PStr "") entry) = false
        \/ filter has_gloss l = []).
Proof.
  intros Ht.
  destruct (process_entry_typed entry lang_code Ht) as (l & ety & Hsl & _ & ->).
  exists l. eexists. split; [exact Hsl|]. split; [reflexivity|].
  rewrite <- no_first_gloss.
  destruct (truthy (field_or "word" (PStr "") entry)); cbn [negb].
  - destruct (flat_map first_gloss l); split.
    + intros _. now right.
    + reflexivity.
    + discriminate.
    + intros [H | H]; discriminate.
  - split; [now left | reflexivity].
Qed.

Lemma typed_record_never_raises_witness :
  exists l res,
    sense_list gato_entry = Some l
    /\ process_entry gato_entry "es" = Ok res
    /\ (res = None <->
        truthy (field_or "word" (PStr "") gato_entry) = false
        \/ filter has_gloss l = []).
Proof.
  apply (typed_record_never_raises gato_entry "es").
  repeat split; try (eexists; reflexivity); cbn.
  - eexists. split; [reflexivity|].
    repeat constructor; try (eexists; reflexivity); exact I.
  - eexists. split; [reflexivity|].
    repeat constructor; eexists; reflexivity.
Defined.
(** The extractor, rebuilt from what an accepting run went through. *)
Lemma process_entry_language (entry : pyval) (lang1 lang2 : string)
    (r1 : extracted) :
  process_entry entry lang1 = Ok (Some r1) ->
  process_entry entry lang2
  = Ok (Some (mkExtracted (ex_word r1) (ex_pos r1) (ex_senses_data r1)
                (ex_etymology_text r1)
                (map translation_of
                   (filter (kept lang2)
                      (elements (field_or "translations" (PList []) entry)))))).
Proof.
  intros H.
  pose proof (accepted_translations _ _ _ H) as (tl & Hel & Hdicts & _).
  apply process_entry_accepted in H
    as (kv & si & ti & -> & Hw & Hwt & Hp & Hety & Hsi & Hsl & Hne & Hti & Htl).
  apply translations_loop_spec in Htl as (_ & Hall).
  unfold process_entry. rewrite py_get_dict. cbn [bind].
  rewrite <- Hw, Hwt. cbn [negb].
  rewrite py_get_dict. cbn [bind]. rewrite <- Hp, Hety. cbn [bind].
  rewrite py_get_dict. cbn [bind]. rewrite Hsi. cbn [bind]. rewrite Hsl.
  cbn [bind].
  destruct (ex_senses_data r1) as [|s0 sd] eqn:Hsd; [contradiction|].
  rewrite py_get_dict. cbn [bind]. rewrite Hti. cbn [bind].
  rewrite (translations_loop_dicts _ ti [] Hall). cbn [bind app].
  fold (allow_list lang2). fold (kept lang2).
  assert (ti = tl) as ->.
  { rewrite <- Hel.
    destruct (field_or "translations" (PList []) (PDict kv))
      as [| | | |s|l0|kv0]; try discriminate Hti; cbn in Hti |- *.
    - injection Hti as <-. destruct s as [|c s]; [reflexivity|].
      inversion Hall as [|? ? (kv' & Hkv') Hrest]. discriminate Hkv'.
    - now injection Hti as <-.
    - injection Hti as <-. destruct kv0 as [|p kv0]; [reflexivity|].
      inversion Hall as [|? ? (kv' & Hkv') Hrest]. discriminate Hkv'. }
  rewrite Hel. reflexivity.
Qed.

Lemma allow_list_other (lang_code : string) :
  lang_code <> "en" -> lang_code <> "es" -> allow_list lang_code = [].
Proof.
  intros Hen Hes. unfold allow_list, TARGET_TRANSLATIONS. cbn [assoc_get].
  destruct (String.eqb_spec "en" lang_code) as [E|_]; [now subst|].
  destruct (String.eqb_spec "es" lang_code) as [E|_]; [now subst|].
  reflexivity.
Qed.

(** X4.  The language code only selects the cross-references: under any
    two language codes the extractor accepts the same records with the
    same headword, part of speech, definitions and etymology, and under
    a language code other than "en" and "es" it returns no
    cross-reference at all. *)
Theorem language_only_selects_cross_references (entry : pyval)
    (lang1 lang2 : string) (r1 : extracted) :
  process_entry entry lang1 = Ok (Some r1) ->
  exists r2,
    process_entry entry lang2 = Ok (Some r2)
    /\ (ex_word r2, ex_pos r2, ex_senses_data r2, ex_etymology_text r2)
       = (ex_word r1, ex_pos r1, ex_senses_data r1, ex_etymology_text r1)
    /\ (lang2 <> "en" -> lang2 <> "es" -> ex_translations r2 = []).
Proof.
  intros H. eexists. split; [exact (process_entry_language _ _ lang2 _ H)|].
  split; [reflexivity|]. intros Hen Hes. cbn [ex_translations].
  replace (filter (kept lang2)
             (elements (field_or "translations" (PList []) entry)))
    with (@nil pyval); [reflexivity|].
  symmetry. unfold kept. rewrite (allow_list_other lang2 Hen Hes).
  induction (elements (field_or "translations" (PList []) entry)) as [|t tl IH];
    [reflexivity | exact IH].
Qed.

Lemma language_only_selects_cross_references_witness :
  exists r2,
    process_entry gato_entry "fr" = Ok (Some r2)
    /\ (ex_word r2, ex_pos r2, ex_senses_data r2, ex_etymology_text r2)
       = (ex_word (run_option (process_entry gato_entry "es")),
          ex_pos (run_option (process_entry gato_entry "es")),
          ex_senses_data (run_option (process_entry gato_entry "es")),
          ex_etymology_text (run_option (process_entry gato_entry "es")))
    /\ ("fr" <> "en" -> "fr" <> "es" -> ex_translations r2 = []).
Proof.
  apply (language_only_selects_cross_references gato_entry "es" "fr"
           (run_option (process_entry gato_entry "es"))).
  vm_compute; reflexivity.
Defined.

(** The cross-references the extractor returns are allowed ones. *)
Lemma accepted_translation_allowed (entry : pyval) (lang_code : string)
    (r : extracted) (t : translation) :
  process_entry entry lang_code = Ok (Some r) ->
  In t (ex_translations r) ->
  exists target,
    target_lang t = PStr target
    /\ In target (allow_list lang_code)
    /\ truthy (target_word t) = true.
Proof.
  intros H Hin.
  apply accepted_translations in H as (l & _ & _ & Htr).
  rewrite Htr in Hin. apply in_map_iff in Hin as (x & <- & Hx).
  apply filter_In in Hx as (_ & Hk).
  unfold kept in Hk. apply andb_prop in Hk as (Hlang & Hword).
  unfold py_in_strs in Hlang. apply existsb_exists in Hlang as (target & Ht & Heq).
  apply py_eq_str_true in Heq.
  exists target. cbn. now repeat split.
Qed.

Lemma expected_translations_origin (lang_code : string) (es : list pyval) :
  forall wid sid row,
    In row (expected_translations lang_code es wid sid) ->
    exists e r t,
      In e es
      /\ process_entry e lang_code = Ok (Some r)
      /\ In t (ex_translations r)
      /\ trans_row_lang row = target_lang t
      /\ trans_row_word row = target_word t.
Proof.
  induction es as [|e es IH]; intros wid sid row Hin; [contradiction|].
  destruct (process_entry e lang_code) as [[r|]|ex] eqn:He.
  - destruct (expected_accepted lang_code e es r wid sid He) as (_ & _ & Et).
    rewrite Et in Hin. apply in_app_or in Hin as [Hin | Hin].
    + unfold entry_trans_rows in Hin. apply in_map_iff in Hin as (t & <- & Ht).
      exists e, r, t. repeat split; try assumption. now left.
    + apply IH in Hin as (e' & r' & t & Hin' & H').
      exists e', r', t. split; [now right | exact H'].
  - unfold expected_translations in *. cbn [expected_rows] in Hin.
    rewrite He in Hin.
    apply IH in Hin as (e' & r' & t & Hin' & H').
    exists e', r', t. split; [now right | exact H'].
  - unfold expected_translations in *. cbn [expected_rows] in Hin.
    rewrite He in Hin.
    apply IH in Hin as (e' & r' & t & Hin' & H').
    exists e', r', t. split; [now right | exact H'].
Qed.

(** X3.  Every cross-reference row a file adds has for target language
    a string of the allow-list of the language processed, and a
    non-empty target word: a file processed as "en" stores only "es"
    cross-references, a file processed as "es" only "en" ones, and a
    file processed under another code none. *)
Theorem cross_reference_rows_allowed (json_loads : string -> option pyval)
    (c : connection) (out : list message) (log : list pyval) (name : string)
    (lines : list string) (lang_code : string) (sw ss : Z) (st : loop_state) :
  process_file json_loads c out log name lines lang_code sw ss = Ok st ->
  exists new,
    translations (conn st) = translations c ++ new
    /\ (forall row, In row new ->
          exists target,
            trans_row_lang row = PStr target
            /\ In target (allow_list lang_code)
            /\ truthy (trans_row_word row) = true)
    /\ (lang_code = "en" -> forall row, In row new -> trans_row_lang row = PStr "es")
    /\ (lang_code = "es" -> forall row, In row new -> trans_row_lang row = PStr "en")
    /\ (lang_code <> "en" -> lang_code <> "es" -> new = []).
Proof.
  intros H.
  apply process_file_rows in H as (es & _ & _ & _ & _ & Ht & _).
  exists (expected_translations lang_code es sw ss). split; [exact Ht|].
  assert (Hrow : forall row,
             In row (expected_translations lang_code es sw ss) ->
             exists target,
               trans_row_lang row = PStr target
               /\ In target (allow_list lang_code)
               /\ truthy (trans_row_word row) = true).
  { intros row Hin.
    apply expected_translations_origin in Hin
      as (e & r & t & _ & Hacc & Hin & -> & ->).
    exact (accepted_translation_allowed e lang_code r t Hacc Hin). }
  split; [exact Hrow|]. split; [|split].
  - intros -> row Hin. destruct (Hrow row Hin) as (target & -> & [<- | []] & _).
    reflexivity.
  - intros -> row Hin. destruct (Hrow row Hin) as (target & -> & [<- | []] & _).
    reflexivity.
  - intros Hen Hes.
    destruct (expected_translations lang_code es sw ss) as [|row rows] eqn:E;
      [reflexivity|].
    destruct (Hrow row (or_introl eq_refl)) as (target & _ & Hin & _).
    rewrite (allow_list_other lang_code Hen Hes) in Hin. contradiction.
Qed.

Lemma cross_reference_rows_allowed_witness :
  let st :=
    run_state
      (process_file simple_json_loads (create_schema connect) [] [] "es.jsonl"
         [gato_line; cat_line] "es" 1 1) (start_state connect [] [] 0 0) in
  exists new,
    translations (conn st) = translations (create_schema connect) ++ new
    /\ (forall row, In row new ->
          exists target,
            trans_row_lang row = PStr target
            /\ In target (allow_list "es")
            /\ truthy (trans_row_word row) = true)
    /\ ("es" = "en" -> forall row, In row new -> trans_row_lang row = PStr "es")
    /\ ("es" = "es" -> forall row, In row new -> trans_row_lang row = PStr "en")
    /\ ("es" <> "en" -> "es" <> "es" -> new = []).
Proof.
  apply (cross_reference_rows_allowed simple_json_loads (create_schema connect)
           [] [] "es.jsonl" [gato_line; cat_line] "es" 1 1).
  vm_compute; reflexivity.
Defined.
(* ================================================================== *)
(** ** When and with what a file completes *)

Section Completion.

Variable json_loads : string -> option pyval.
Variable lang_code : string.

Lemma handed_entries_app (l1 l2 : list string) :
  handed_entries json_loads lang_code (l1 ++ l2)
  = handed_entries json_loads lang_code l1
      ++ handed_entries json_loads lang_code l2.
Proof.
  induction l1 as [|line l1 IH]; [reflexivity|].
  cbn [app handed_entries]. rewrite IH.
  destruct (py_strip line =? "")%string; [reflexivity|].
  destruct (json_loads (py_strip line)) as [entry|]; [|reflexivity].
  destruct (py_eq_str (field_or "lang_code" (PStr "") entry) lang_code);
    reflexivity.
Qed.

Lemma forallb_line_ok_app (l1 l2 : list string) :
  forallb (line_ok json_loads lang_code) (l1 ++ l2)
  = forallb (line_ok json_loads lang_code) l1
    && forallb (line_ok json_loads lang_code) l2.
Proof. apply forallb_app. Qed.

(** One iteration ends normally exactly on the lines that are [line_ok],
    and then the log grows by the record handed over, if any. *)
Lemma loop_body_line (st : loop_state) (line_num : Z) (line : string) :
  match loop_body json_loads lang_code st line_num line with
  | Ok st' =>
      line_ok json_loads lang_code line = true
      /\ calls st' = calls st ++ handed_entries json_loads lang_code [line]
  | Raise _ => line_ok json_loads lang_code line = false
  end.
Proof.
  unfold loop_body, line_ok. cbn [handed_entries].
  destruct (py_strip line =? "")%string.
  { split; [reflexivity | now rewrite app_nil_r]. }
  destruct (json_loads (py_strip line)) as [entry|].
  2:{ split; [reflexivity | cbn; now rewrite app_nil_r]. }
  destruct entry as [| | | | | |kv]; try reflexivity.
  rewrite py_get_dict. cbn [bind].
  destruct (py_eq_str (field_or "lang_code" (PStr "") (PDict kv)) lang_code);
    cbn [negb].
  2:{ split; [reflexivity | now rewrite app_nil_r]. }
  destruct (process_entry (PDict kv) lang_code) as [[r|]|e]; cbn [bind].
  - split; [reflexivity|].
    destruct (add_entry_spec lang_code r (log_call (PDict kv) st))
      as (_ & _ & _ & _ & _ & _ & ->). reflexivity.
  - split; reflexivity.
  - reflexivity.
Qed.

Lemma run_lines_lines (lines : list string) :
  forall n st,
    match run_lines json_loads lang_code lines n st with
    | Ok st' =>
        forallb (line_ok json_loads lang_code) lines = true
        /\ calls st' = calls st ++ handed_entries json_loads lang_code lines
    | Raise _ => forallb (line_ok json_loads lang_code) lines = false
    end.
Proof.
  induction lines as [|line rest IH]; intros n st.
  - cbn. split; [reflexivity | now rewrite app_nil_r].
  - cbn [run_lines forallb].
    pose proof (loop_body_line st n line) as Hb.
    destruct (loop_body json_loads lang_code st n line) as [st1|e]; cbn [bind].
    + destruct Hb as (-> & Hc1). cbn [andb].
      specialize (IH (n + 1) st1).
      destruct (run_lines json_loads lang_code rest (n + 1) st1) as [st'|e'].
      * destruct IH as (-> & Hc2). split; [reflexivity|].
        rewrite Hc2, Hc1, <- app_assoc.
        now rewrite <- (handed_entries_app [line] rest).
      * exact IH.
    + now rewrite Hb.
Qed.

Lemma run_lines_app (l1 l2 : list string) :
  forall n st,
    run_lines json_loads lang_code (l1 ++ l2) n st
    = (st1 <- run_lines json_loads lang_code l1 n st ;;
       run_lines json_loads lang_code l2 (n + Z.of_nat (List.length l1)) st1).
Proof.
  induction l1 as [|line l1 IH]; intros n st.
  - cbn. now rewrite Z.add_0_r.
  - cbn [app run_lines List.length].
    destruct (loop_body json_loads lang_code st n line) as [st1|e]; cbn [bind];
      [|reflexivity].
    rewrite IH.
    replace (n + 1 + Z.of_nat (List.length l1))
      with (n + Z.of_nat (S (List.length l1))) by lia.
    reflexivity.
Qed.

Lemma pending_inv_step (st st' : loop_state) (n : Z) (line : string) :
  pending_inv st -> step json_loads lang_code st n line st' -> pending_inv st'.
Proof.
  intros (Hpos & Hlen) [ | | entry Hh Hrej | entry r Hh Hacc];
    try (split; assumption).
  unfold pending_inv, add_entry. rewrite add_senses_spec.
  cbn [log_call entry_count conn words_batch senses_batch trans_batch word_id
         sense_id stdout calls].
  assert (Hb : 0 <= entry_count st mod BATCH_SIZE < BATCH_SIZE)
    by (apply Z.mod_pos_bound; reflexivity).
  destruct ((entry_count st + 1) mod BATCH_SIZE =? 0) eqn:Hm.
  - apply Z.eqb_eq in Hm. cbn -[flush_batches Z.modulo].
    split; [lia | now rewrite Hm].
  - apply Z.eqb_neq in Hm. cbn -[Z.modulo]. split; [lia|].
    rewrite length_app. cbn [List.length]. rewrite Nat2Z.inj_add, Hlen.
    unfold BATCH_SIZE in *. Z.div_mod_to_equations. lia.
Qed.

Lemma run_lines_pending (lines : list string) (n : Z) (st st' : loop_state) :
  pending_inv st ->
  run_lines json_loads lang_code lines n st = Ok st' -> pending_inv st'.
Proof.
  intros Hinv Hrun.
  refine (run_lines_invariant json_loads lang_code pending_inv _ lines n st st'
            Hinv Hrun).
  intros s m l s' Hs Hstep. eapply pending_inv_step; eassumption.
Qed.

Lemma run_lines_batch_inv (commits0 : nat) (lines : list string) (n : Z)
    (st st' : loop_state) :
  batch_inv commits0 st ->
  run_lines json_loads lang_code lines n st = Ok st' -> batch_inv commits0 st'.
Proof.
  intros Hinv Hrun.
  refine (run_lines_invariant json_loads lang_code (batch_inv commits0) _ lines n
            st st' Hinv Hrun).
  intros s m l s' Hs Hstep. eapply batch_inv_step; eassumption.
Qed.

Lemma final_flush_commits (st : loop_state) :
  pending_inv st ->
  (entry_count st mod BATCH_SIZE = 0 ->
   words_batch st = [] /\ senses_batch st = [] /\ trans_batch st = []) ->
  commits (conn (final_flush st))
  = (commits (conn st)
     + (if (entry_count st mod BATCH_SIZE =? 0)%Z then 0 else 1))%nat.
Proof.
  intros (Hpos & Hlen) Hemp.
  destruct (entry_count st mod BATCH_SIZE =? 0) eqn:Hm.
  - apply Z.eqb_eq in Hm. destruct (Hemp Hm) as (Ew & Es & Et).
    rewrite (final_flush_empty st Ew Es Et). lia.
  - apply Z.eqb_neq in Hm. unfold final_flush.
    destruct (words_batch st) as [|w ws]; [cbn in Hlen; lia|].
    cbn -[flush_batches]. rewrite flush_commits. lia.
Qed.

(** All of what a completed file returns and leaves in the database. *)
Lemma process_file_full (c : connection) (out : list message) (log : list pyval)
    (name : string) (lines : list string) (sw ss : Z) (st : loop_state) :
  process_file json_loads c out log name lines lang_code sw ss = Ok st ->
  let es := handed_entries json_loads lang_code lines in
  calls st = log ++ es
  /\ words (conn st) = words c ++ expected_words lang_code es sw ss
  /\ senses (conn st) = senses c ++ expected_senses lang_code es sw ss
  /\ translations (conn st)
     = translations c ++ expected_translations lang_code es sw ss
  /\ commits (conn st) = (commits c + flushes (entry_count st))%nat
  /\ word_id st = sw + Z.of_nat (List.length (expected_words lang_code es sw ss))
  /\ sense_id st
     = ss + Z.of_nat (List.length (expected_senses lang_code es sw ss))
  /\ entry_count st = Z.of_nat (List.length (expected_words lang_code es sw ss)).
Proof.
  intros H es.
  pose proof (process_file_rows json_loads _ _ _ _ _ _ _ _ _ H)
    as (es' & Hc & _ & Hw & Hs & Ht & Hwid & Hsid & Hec).
  apply process_file_inv in H as (st1 & Hrun & ->).
  pose proof (run_lines_lines lines 1
                (print (MsgProcessing name lang_code) (start_state c out log sw ss)))
    as Hl.
  rewrite Hrun in Hl. destruct Hl as (_ & Hcalls).
  destruct (final_flush_spec st1) as (_ & _ & _ & _ & _ & Fec & Fc & _).
  cbn [print calls conn word_id sense_id entry_count] in *.
  rewrite Fc, Hcalls in Hc. cbn in Hc. apply app_inv_head in Hc. subst es'.
  assert (Hcs : calls (final_flush st1) = log ++ es)
    by (rewrite Fc, Hcalls; reflexivity).
  fold es. repeat split; try assumption.
  assert (Hp : pending_inv st1).
  { refine (run_lines_pending lines 1 _ st1 _ Hrun). split; cbn; lia. }
  assert (Hb : batch_inv (commits c) st1).
  { refine (run_lines_batch_inv (commits c) lines 1 _ st1 _ Hrun).
    split; [cbn; lia|]. split; [cbn; lia|]. intros _. now repeat split. }
  destruct Hb as (Hb1 & Hb2 & Hb3).
  rewrite (final_flush_commits st1 Hp Hb3), Fec, Hb2. unfold flushes. lia.
Qed.

End Completion.
(* ================================================================== *)
(** ** Completion, rows and commits of a file *)

Lemma process_file_ok_iff (json_loads : string -> option pyval)
    (c : connection) (out : list message) (log : list pyval) (name : string)
    (lines : list string) (lang_code : string) (sw ss : Z) :
  (exists st,
      process_file json_loads c out log name lines lang_code sw ss = Ok st)
  <-> forallb (line_ok json_loads lang_code) lines = true.
Proof.
  unfold process_file.
  pose proof (run_lines_lines json_loads lang_code lines 1
                (print (MsgProcessing name lang_code)
                   (start_state c out log sw ss))) as H.
  destruct (run_lines json_loads lang_code lines 1
              (print (MsgProcessing name lang_code)
                 (start_state c out log sw ss))) as [st1|e]; cbn [bind].
  - destruct H as (H & _). split; [intros _; exact H | intros _; eexists; reflexivity].
  - split; [intros (st & Hst); discriminate Hst | intros H'; congruence].
Qed.

(** X5.  A file that is processed to its end had no failing line: each
    of its lines was blank, or did not decode, or decoded to a mapping
    that declared another language or on which the extractor returned;
    a JSON value that is not a mapping, or a record on which the
    extractor raises, anywhere in the file, means the run does not
    complete. *)
Theorem completed_file_had_no_failing_line (json_loads : string -> option pyval)
    (c : connection) (out : list message) (log : list pyval) (name : string)
    (lines : list string) (lang_code : string) (sw ss : Z) (st : loop_state) :
  process_file json_loads c out log name lines lang_code sw ss = Ok st ->
  forallb (line_ok json_loads lang_code) lines = true
  /\ forall line, In line lines -> line_exception json_loads lang_code line = None.
Proof.
  intros H.
  assert (Hok : forallb (line_ok json_loads lang_code) lines = true).
  { apply (process_file_ok_iff json_loads c out log name lines lang_code sw ss).
    now exists st. }
  split; [exact Hok|].
  intros line Hin. rewrite forallb_forall in Hok. specialize (Hok line Hin).
  unfold line_ok in Hok. unfold line_exception.
  destruct (py_strip line =? "")%string; [reflexivity|].
  destruct (json_loads (py_strip line)) as [entry|]; [|reflexivity].
  destruct entry as [| | | | | |kv]; try discriminate Hok.
  destruct (py_eq_str (field_or "lang_code" (PStr "") (PDict kv)) lang_code);
    [|reflexivity].
  destruct (process_entry (PDict kv) lang_code); [reflexivity | discriminate Hok].
Qed.

Lemma completed_file_had_no_failing_line_witness :
  let lines := [cat_line; malformed_line; newline; gato_line; glossless_line] in
  forallb (line_ok simple_json_loads "en") lines = true
  /\ forall line, In line lines -> line_exception simple_json_loads "en" line = None.
Proof.
  apply (completed_file_had_no_failing_line simple_json_loads
           (create_schema connect) [] [] "en.jsonl"
           [cat_line; malformed_line; newline; gato_line; glossless_line]
           "en" 1 1
           (run_state
              (process_file simple_json_loads (create_schema connect) [] []
                 "en.jsonl"
                 [cat_line; malformed_line; newline; gato_line; glossless_line]
                 "en" 1 1) (start_state connect [] [] 0 0))).
  vm_compute; reflexivity.
Defined.

(** X6.  The batches leave no trace in the result: when a file
    completes, each table holds the rows it had, unchanged and in place,
    followed by the rows of the records of the file that declare the
    language and that the extractor accepts, in the order of the file,
    each record giving once its entry row, its definition rows and its
    cross-reference rows. *)
Theorem file_rows_are_the_accepted_records
    (json_loads : string -> option pyval)
    (c : connection) (out : list message) (log : list pyval) (name : string)
    (lines : list string) (lang_code : string) (sw ss : Z) (st : loop_state) :
  process_file json_loads c out log name lines lang_code sw ss = Ok st ->
  let es := handed_entries json_loads lang_code lines in
  calls st = log ++ es
  /\ words (conn st) = words c ++ expected_words lang_code es sw ss
  /\ senses (conn st) = senses c ++ expected_senses lang_code es sw ss
  /\ translations (conn st)
     = translations c ++ expected_translations lang_code es sw ss.
Proof.
  intros H es.
  destruct (process_file_full json_loads lang_code c out log name lines sw ss st H)
    as (Hc & Hw & Hs & Ht & _).
  now repeat split.
Qed.

Lemma file_rows_are_the_accepted_records_witness :
  let lines := [cat_line; malformed_line; gato_line; glossless_line;
                empty_gloss_line] in
  let st :=
    run_state
      (process_file simple_json_loads (create_schema connect) [] [] "en.jsonl"
         lines "en" 1 1) (start_state connect [] [] 0 0) in
  let es := handed_entries simple_json_loads "en" lines in
  calls st = [] ++ es
  /\ words (conn st)
     = words (create_schema connect) ++ expected_words "en" es 1 1
  /\ senses (conn st)
     = senses (create_schema connect) ++ expected_senses "en" es 1 1
  /\ translations (conn st)
     = translations (create_schema connect)
         ++ expected_translations "en" es 1 1.
Proof.
  apply (file_rows_are_the_accepted_records simple_json_loads
           (create_schema connect) [] [] "en.jsonl"
           [cat_line; malformed_line; gato_line; glossless_line;
            empty_gloss_line] "en" 1 1).
  vm_compute; reflexivity.
Defined.

Lemma flushes_bounds (n : Z) :
  0 <= n ->
  BATCH_SIZE * (Z.of_nat (flushes n) - 1) < n <= BATCH_SIZE * Z.of_nat (flushes n).
Proof.
  intros Hn. unfold flushes.
  assert (0 <= n / BATCH_SIZE) by (apply Z.div_pos; [assumption | reflexivity]).
  rewrite Nat2Z.inj_add, Z2Nat.id by assumption.
  unfold BATCH_SIZE in *.
  destruct (n mod 10000 =? 0) eqn:Hm.
  - apply Z.eqb_eq in Hm. cbn [Z.of_nat]. Z.div_mod_to_equations. lia.
  - apply Z.eqb_neq in Hm. change (Z.of_nat 1) with 1.
    Z.div_mod_to_equations. lia.
Qed.

(** X7.  A completed file costs as many commits as it has batches: with
    [n] entries counted, the number [k] of commits is the least with
    [n <= BATCH_SIZE * k]; one for each full batch flushed in the loop
    and one more for a remainder, none for a file without entries. *)
Theorem commits_are_batches (json_loads : string -> option pyval)
    (c : connection) (out : list message) (log : list pyval) (name : string)
    (lines : list string) (lang_code : string) (sw ss : Z) (st : loop_state) :
  process_file json_loads c out log name lines lang_code sw ss = Ok st ->
  exists k : nat,
    commits (conn st) = (commits c + k)%nat
    /\ BATCH_SIZE * (Z.of_nat k - 1) < entry_count st <= BATCH_SIZE * Z.of_nat k
    /\ k = flushes (entry_count st).
Proof.
  intros H.
  destruct (process_file_full json_loads lang_code c out log name lines sw ss st H)
    as (_ & _ & _ & _ & Hcom & _ & _ & Hec).
  exists (flushes (entry_count st)). split; [exact Hcom|].
  split; [|reflexivity]. apply flushes_bounds. rewrite Hec. lia.
Qed.

Lemma commits_are_batches_witness :
  let st :=
    run_state
      (process_file simple_json_loads (create_schema connect) [] [] "en.jsonl"
         [cat_line; malformed_line; empty_gloss_line] "en" 1 1)
      (start_state connect [] [] 0 0) in
  exists k : nat,
    commits (conn st) = (commits (create_schema connect) + k)%nat
    /\ BATCH_SIZE * (Z.of_nat k - 1) < entry_count st <= BATCH_SIZE * Z.of_nat k
    /\ k = flushes (entry_count st).
Proof.
  apply (commits_are_batches simple_json_loads (create_schema connect) [] []
           "en.jsonl" [cat_line; malformed_line; empty_gloss_line] "en" 1 1).
  vm_compute; reflexivity.
Defined.

(** X8.  After any part of a file the pending entry rows are the entries
    counted since the last multiple of [BATCH_SIZE], so there are fewer
    than [BATCH_SIZE] of them. *)
Theorem pending_entries_below_batch_size (json_loads : string -> option pyval)
    (c : connection) (out : list message) (log : list pyval) (name : string)
    (done rest : list string) (lang_code : string) (sw ss : Z)
    (st : loop_state) :
  process_file json_loads c out log name (done ++ rest) lang_code sw ss = Ok st ->
  exists st1,
    run_lines json_loads lang_code done 1
      (print (MsgProcessing name lang_code) (start_state c out log sw ss))
    = Ok st1
    /\ Z.of_nat (List.length (words_batch st1)) = entry_count st1 mod BATCH_SIZE
    /\ Z.of_nat (List.length (words_batch st1)) < BATCH_SIZE.
Proof.
  intros H. apply process_file_inv in H as (st2 & Hrun & _).
  rewrite run_lines_app in Hrun. apply bind_ok in Hrun as (st1 & H1 & _).
  exists st1. split; [exact H1|].
  assert (Hp : pending_inv st1).
  { refine (run_lines_pending json_loads lang_code done 1 _ st1 _ H1).
    split; cbn; lia. }
  destruct Hp as (_ & Hlen). split; [exact Hlen|]. rewrite Hlen.
  apply Z.mod_pos_bound. reflexivity.
Qed.

Lemma pending_entries_below_batch_size_witness :
  exists st1,
    run_lines simple_json_loads "en" [cat_line; empty_gloss_line] 1
      (print (MsgProcessing "en.jsonl" "en")
         (start_state (create_schema connect) [] [] 1 1))
    = Ok st1
    /\ Z.of_nat (List.length (words_batch st1)) = entry_count st1 mod BATCH_SIZE
    /\ Z.of_nat (List.length (words_batch st1)) < BATCH_SIZE.
Proof.
  apply (pending_entries_below_batch_size simple_json_loads
           (create_schema connect) [] [] "en.jsonl"
           [cat_line; empty_gloss_line] [short_line] "en" 1 1
           (run_state
              (process_file simple_json_loads (create_schema connect) [] []
                 "en.jsonl" ([cat_line; empty_gloss_line] ++ [short_line])
                 "en" 1 1) (start_state connect [] [] 0 0))).
  vm_compute; reflexivity.
Defined.
(* ================================================================== *)
(** ** Cursors, references and empty loads *)

Lemma connection_eq (c1 c2 : connection) :
  words c1 = words c2 -> senses c1 = senses c2 ->
  translations c1 = translations c2 -> commits c1 = commits c2 -> c1 = c2.
Proof. destruct c1, c2; cbn; intros -> -> -> ->; reflexivity. Qed.

Lemma expected_no_words (lang_code : string) (es : list pyval) :
  forall wid sid,
    expected_words lang_code es wid sid = [] ->
    expected_senses lang_code es wid sid = []
    /\ expected_translations lang_code es wid sid = [].
Proof.
  induction es as [|e es IH]; intros wid sid H; [now split|].
  destruct (process_entry e lang_code) as [[r|]|ex] eqn:He.
  - destruct (expected_accepted lang_code e es r wid sid He) as (Ew & _ & _).
    rewrite Ew in H. discriminate H.
  - unfold expected_words, expected_senses, expected_translations in *.
    cbn [expected_rows] in H |- *. rewrite He in H |- *. now apply IH.
  - unfold expected_words, expected_senses, expected_translations in *.
    cbn [expected_rows] in H |- *. rewrite He in H |- *. now apply IH.
Qed.

Lemma handed_entries_length (json_loads : string -> option pyval)
    (lang_code : string) (lines : list string) :
  (List.length (handed_entries json_loads lang_code lines)
   <= List.length lines)%nat.
Proof.
  induction lines as [|line rest IH]; [cbn; lia|].
  cbn [handed_entries List.length].
  destruct (py_strip line =? "")%string; [lia|].
  destruct (json_loads (py_strip line)) as [entry|]; [|lia].
  destruct (py_eq_str (field_or "lang_code" (PStr "") entry) lang_code);
    cbn [List.length]; lia.
Qed.

(** X9.  A file without a qualifying record leaves the connection as it
    was: no row is added and nothing is committed. *)
Theorem empty_load_leaves_connection (json_loads : string -> option pyval)
    (c : connection) (out : list message) (log : list pyval) (name : string)
    (lines : list string) (lang_code : string) (sw ss : Z) :
  returned_count (process_file json_loads c out log name lines lang_code sw ss)
  = Some 0 ->
  exists st,
    process_file json_loads c out log name lines lang_code sw ss = Ok st
    /\ conn st = c
    /\ (word_id st, sense_id st) = (sw, ss).
Proof.
  intros Hret.
  destruct (process_file json_loads c out log name lines lang_code sw ss)
    as [st|ex] eqn:H; [|discriminate Hret].
  cbn [returned_count] in Hret. injection Hret as Hcount.
  destruct (process_file_full json_loads lang_code c out log name lines sw ss st H)
    as (_ & Hw & Hs & Ht & Hcom & Hwid & Hsid & Hec).
  rewrite Hcount in Hec, Hcom.
  assert (Hnil : expected_words lang_code
                   (handed_entries json_loads lang_code lines) sw ss = []).
  { apply length_zero_iff_nil. lia. }
  destruct (expected_no_words _ _ _ _ Hnil) as (Hsn & Htn).
  rewrite Hnil in Hw, Hwid. rewrite Hsn in Hs, Hsid. rewrite Htn in Ht.
  rewrite app_nil_r in Hw, Hs, Ht. cbn in Hwid, Hsid.
  exists st. split; [reflexivity|]. split.
  - apply connection_eq; try assumption. rewrite Hcom. cbn. lia.
  - f_equal; lia.
Qed.

Lemma empty_load_leaves_connection_witness :
  exists st,
    process_file simple_json_loads (create_schema connect) [] [] "es.jsonl"
      [cat_line; malformed_line; newline; glossless_line] "es" 1 1 = Ok st
    /\ conn st = create_schema connect
    /\ (word_id st, sense_id st) = (1, 1).
Proof.
  apply (empty_load_leaves_connection simple_json_loads (create_schema connect)
           [] [] "es.jsonl" [cat_line; malformed_line; newline; glossless_line]
           "es" 1 1).
  vm_compute; reflexivity.
Defined.

(** X10.  The triple a completed file returns: the entry count is the
    number of entry rows added, the entry cursor has advanced by it and
    the definition cursor by the number of definition rows added; there
    are at least as many definition rows as entries and at most as many
    entries as lines. *)
Theorem returned_cursors_count_the_rows (json_loads : string -> option pyval)
    (c : connection) (out : list message) (log : list pyval) (name : string)
    (lines : list string) (lang_code : string) (sw ss : Z) (st : loop_state) :
  process_file json_loads c out log name lines lang_code sw ss = Ok st ->
  exists new_words new_senses,
    words (conn st) = words c ++ new_words
    /\ senses (conn st) = senses c ++ new_senses
    /\ entry_count st = Z.of_nat (List.length new_words)
    /\ word_id st = sw + entry_count st
    /\ sense_id st = ss + Z.of_nat (List.length new_senses)
    /\ entry_count st <= Z.of_nat (List.length new_senses)
    /\ entry_count st <= Z.of_nat (List.length lines).
Proof.
  intros H.
  destruct (process_file_full json_loads lang_code c out log name lines sw ss st H)
    as (_ & Hw & Hs & _ & _ & Hwid & Hsid & Hec).
  set (es := handed_entries json_loads lang_code lines) in *.
  exists (expected_words lang_code es sw ss), (expected_senses lang_code es sw ss).
  destruct (expected_lengths lang_code es sw ss) as (Hle1 & Hle2).
  pose proof (handed_entries_length json_loads lang_code lines) as Hle3.
  fold es in Hle3.
  repeat split; try assumption; lia.
Qed.

Lemma returned_cursors_count_the_rows_witness :
  let st :=
    run_state
      (process_file simple_json_loads (create_schema connect) [] [] "es.jsonl"
         [cat_line; gato_line; malformed_line] "es" 1 1)
      (start_state connect [] [] 0 0) in
  exists new_words new_senses,
    words (conn st) = words (create_schema connect) ++ new_words
    /\ senses (conn st) = senses (create_schema connect) ++ new_senses
    /\ entry_count st = Z.of_nat (List.length new_words)
    /\ word_id st = 1 + entry_count st
    /\ sense_id st = 1 + Z.of_nat (List.length new_senses)
    /\ entry_count st <= Z.of_nat (List.length new_senses)
    /\ entry_count st
       <= Z.of_nat (List.length [cat_line; gato_line; malformed_line]).
Proof.
  apply (returned_cursors_count_the_rows simple_json_loads
           (create_schema connect) [] [] "es.jsonl"
           [cat_line; gato_line; malformed_line] "es" 1 1).
  vm_compute; reflexivity.
Defined.

Lemma references_hold_app (w1 w2 : list word_row) (s1 s2 : list sense_row)
    (t1 t2 : list trans_row) :
  references_hold w1 s1 t1 -> references_hold w2 s2 t2 ->
  references_hold (w1 ++ w2) (s1 ++ s2) (t1 ++ t2).
Proof.
  intros (A1 & B1 & C1) (A2 & B2 & C2). repeat split.
  - intros s Hs. apply in_app_or in Hs as [Hs | Hs].
    + destruct (A1 s Hs) as (w & Hw & E). exists w. split; [|exact E].
      apply in_or_app. now left.
    + destruct (A2 s Hs) as (w & Hw & E). exists w. split; [|exact E].
      apply in_or_app. now right.
  - intros w Hw. apply in_app_or in Hw as [Hw | Hw].
    + destruct (B1 w Hw) as (s & Hs & E). exists s. split; [|exact E].
      apply in_or_app. now left.
    + destruct (B2 w Hw) as (s & Hs & E). exists s. split; [|exact E].
      apply in_or_app. now right.
  - intros t Ht. apply in_app_or in Ht as [Ht | Ht].
    + destruct (C1 t Ht) as (s & Hs & E). exists s. split; [|exact E].
      apply in_or_app. now left.
    + destruct (C2 t Ht) as (s & Hs & E). exists s. split; [|exact E].
      apply in_or_app. now right.
Qed.

Lemma entry_references (lang_code : string) (e : pyval) (r : extracted)
    (wid sid : Z) :
  process_entry e lang_code = Ok (Some r) ->
  references_hold [(wid, ex_word r, lang_code)] (entry_sense_rows r wid sid)
    (entry_trans_rows r sid).
Proof.
  intros H. pose proof (accepted_has_sense e lang_code r H) as Hlen.
  unfold entry_sense_rows, entry_trans_rows.
  destruct (ex_senses_data r) as [|[g tr] sd]; [cbn in Hlen; lia|].
  repeat split.
  - intros s Hs. exists (wid, ex_word r, lang_code). split; [now left|].
    now apply sense_rows_columns in Hs.
  - intros w [<- | []]. eexists. split; [now left | reflexivity].
  - intros t Ht. apply in_map_iff in Ht as (x & <- & _).
    eexists. split; [now left | reflexivity].
Qed.

Lemma expected_references (lang_code : string) (es : list pyval) :
  forall wid sid,
    references_hold (expected_words lang_code es wid sid)
      (expected_senses lang_code es wid sid)
      (expected_translations lang_code es wid sid).
Proof.
  induction es as [|e es IH]; intros wid sid.
  - repeat split; intros x [].
  - destruct (process_entry e lang_code) as [[r|]|ex] eqn:He.
    + destruct (expected_accepted lang_code e es r wid sid He) as (-> & -> & ->).
      apply (references_hold_app [(wid, ex_word r, lang_code)]);
        [now apply (entry_references lang_code e) | apply IH].
    + unfold expected_words, expected_senses, expected_translations in *.
      cbn [expected_rows]. rewrite He. apply IH.
    + unfold expected_words, expected_senses, expected_translations in *.
      cbn [expected_rows]. rewrite He. apply IH.
Qed.

(** X11.  The rows a file adds refer to each other: every definition row
    added belongs to an entry row added, every entry row added has at
    least one definition row, and every cross-reference row added points
    to a definition row added. *)
Theorem added_rows_refer_to_each_other (json_loads : string -> option pyval)
    (c : connection) (out : list message) (log : list pyval) (name : string)
    (lines : list string) (lang_code : string) (sw ss : Z) (st : loop_state) :
  process_file json_loads c out log name lines lang_code sw ss = Ok st ->
  exists new_words new_senses new_translations,
    words (conn st) = words c ++ new_words
    /\ senses (conn st) = senses c ++ new_senses
    /\ translations (conn st) = translations c ++ new_translations
    /\ references_hold new_words new_senses new_translations.
Proof.
  intros H.
  apply process_file_rows in H as (es & _ & _ & Hw & Hs & Ht & _).
  exists (expected_words lang_code es sw ss), (expected_senses lang_code es sw ss),
         (expected_translations lang_code es sw ss).
  repeat split; try assumption; apply expected_references.
Qed.

Lemma added_rows_refer_to_each_other_witness :
  let st :=
    run_state
      (process_file simple_json_loads (create_schema connect) [] [] "es.jsonl"
         [cat_line; gato_line] "es" 1 1) (start_state connect [] [] 0 0) in
  exists new_words new_senses new_translations,
    words (conn st) = words (create_schema connect) ++ new_words
    /\ senses (conn st) = senses (create_schema connect) ++ new_senses
    /\ translations (conn st)
       = translations (create_schema connect) ++ new_translations
    /\ references_hold new_words new_senses new_translations.
Proof.
  apply (added_rows_refer_to_each_other simple_json_loads
           (create_schema connect) [] [] "es.jsonl" [cat_line; gato_line]
           "es" 1 1).
  vm_compute; reflexivity.
Defined.
(* ================================================================== *)
(** ** Lines that end the run, lines that do not count, files in parts *)

Lemma loop_body_exception (json_loads : string -> option pyval)
    (lang_code : string) (st : loop_state) (line_num : Z) (line : string)
    (e : exn) :
  line_exception json_loads lang_code line = Some e ->
  loop_body json_loads lang_code st line_num line = Raise e.
Proof.
  unfold line_exception, loop_body.
  destruct (py_strip line =? "")%string; [discriminate|].
  destruct (json_loads (py_strip line)) as [entry|]; [|discriminate].
  destruct entry as [| | | | | |kv]; cbn [py_get bind];
    try (intros H; injection H as <-; reflexivity).
  fold (field_or "lang_code" (PStr "") (PDict kv)).
  change (match lookup "lang_code" kv with
          | Some x => x
          | None => PStr ""
          end) with (field_or "lang_code" (PStr "") (PDict kv)).
  destruct (py_eq_str (field_or "lang_code" (PStr "") (PDict kv)) lang_code);
    cbn [negb]; [|discriminate].
  destruct (process_entry (PDict kv) lang_code) as [res|ex]; [discriminate|].
  intros H. now injection H as <-.
Qed.

(** X12.  A file with a line that is a JSON value other than a mapping,
    or a record of the language on which the extractor raises, does not
    complete: the run ends with an exception.  When fewer than
    [BATCH_SIZE] records were accepted before the first such line, so
    that nothing has been flushed yet, the exception is the one of that
    line ([AttributeError] for a value that is not a mapping, the
    exception of the extractor otherwise); what follows the line in the
    file is of no effect. *)
Theorem first_failing_line_ends_the_run (json_loads : string -> option pyval)
    (c : connection) (out : list message) (log : list pyval) (name : string)
    (before rest : list string) (line lang_code : string) (sw ss : Z) (e : exn) :
  forallb (line_ok json_loads lang_code) before = true ->
  line_exception json_loads lang_code line = Some e ->
  (exists e',
      process_file json_loads c out log name (before ++ line :: rest)
        lang_code sw ss = Raise e')
  /\ (Z.of_nat
        (List.length
           (filter (accepted lang_code)
              (handed_entries json_loads lang_code before))) < BATCH_SIZE ->
      process_file json_loads c out log name (before ++ line :: rest)
        lang_code sw ss = Raise e).
Proof.
  intros Hok Hexn.
  assert (H : process_file json_loads c out log name (before ++ line :: rest)
                lang_code sw ss = Raise e).
  { unfold process_file. rewrite run_lines_app.
    pose proof (run_lines_lines json_loads lang_code before 1
                  (print (MsgProcessing name lang_code)
                     (start_state c out log sw ss))) as Hl.
    destruct (run_lines json_loads lang_code before 1
                (print (MsgProcessing name lang_code)
                   (start_state c out log sw ss))) as [st1|ex]; [|congruence].
    cbn [bind run_lines].
    now rewrite (loop_body_exception json_loads lang_code st1 _ line e Hexn). }
  split; [now exists e | intros _; exact H].
Qed.

Lemma first_failing_line_ends_the_run_witness :
  (exists e',
      process_file simple_json_loads (create_schema connect) [] [] "en.jsonl"
        ([cat_line; malformed_line] ++ bad_senses_line :: [cat_line]) "en" 1 1
      = Raise e')
  /\ (Z.of_nat
        (List.length
           (filter (accepted "en")
              (handed_entries simple_json_loads "en"
                 [cat_line; malformed_line]))) < BATCH_SIZE ->
      process_file simple_json_loads (create_schema connect) [] [] "en.jsonl"
        ([cat_line; malformed_line] ++ bad_senses_line :: [cat_line]) "en" 1 1
      = Raise TypeError).
Proof.
  apply (first_failing_line_ends_the_run simple_json_loads
           (create_schema connect) [] [] "en.jsonl" [cat_line; malformed_line]
           [cat_line] bad_senses_line "en" 1 1 TypeError);
    vm_compute; reflexivity.
Defined.

Section Noise.

Variable json_loads : string -> option pyval.
Variable lang_code : string.

Lemma noise_not_handed (lines : list string) :
  handed_entries json_loads lang_code
    (filter (fun l => negb (is_noise json_loads lang_code l)) lines)
  = handed_entries json_loads lang_code lines.
Proof.
  induction lines as [|line rest IH]; [reflexivity|].
  cbn [filter]. unfold is_noise at 1.
  destruct (py_strip line =? "")%string eqn:Hb;
    [cbn [negb handed_entries]; now rewrite Hb|].
  destruct (json_loads (py_strip line)) as [entry|] eqn:Hd;
    [|cbn [negb handed_entries]; now rewrite Hb, Hd].
  destruct entry as [| | | | | |kv];
    try (cbn [negb handed_entries]; rewrite Hb, Hd, IH; reflexivity).
  destruct (py_eq_str (field_or "lang_code" (PStr "") (PDict kv)) lang_code)
    eqn:Hl; cbn [negb handed_entries]; rewrite Hb, Hd, Hl, ?IH; reflexivity.
Qed.

Lemma noise_kept_ok (lines : list string) :
  forallb (line_ok json_loads lang_code) lines = true ->
  forallb (line_ok json_loads lang_code)
    (filter (fun l => negb (is_noise json_loads lang_code l)) lines) = true.
Proof.
  induction lines as [|line rest IH]; [reflexivity|].
  cbn [forallb filter]. intros H. apply andb_prop in H as (H1 & H2).
  destruct (negb (is_noise json_loads lang_code line)); [|now apply IH].
  cbn [forallb]. now rewrite H1, IH.
Qed.

End Noise.

(** X13.  Blank lines, lines that do not decode and records of another
    language count for nothing in the result: the file without them
    gives the same connection, the same cursors, the same entry count and
    the same calls of the extractor (only the warnings printed differ). *)
Theorem noise_lines_do_not_count (json_loads : string -> option pyval)
    (c : connection) (out : list message) (log : list pyval) (name : string)
    (lines : list string) (lang_code : string) (sw ss : Z) (st : loop_state) :
  process_file json_loads c out log name lines lang_code sw ss = Ok st ->
  exists st',
    process_file json_loads c out log name
      (filter (fun l => negb (is_noise json_loads lang_code l)) lines)
      lang_code sw ss = Ok st'
    /\ conn st' = conn st
    /\ (word_id st', sense_id st', entry_count st')
       = (word_id st, sense_id st, entry_count st)
    /\ calls st' = calls st.
Proof.
  intros H.
  assert (Hok : forallb (line_ok json_loads lang_code) lines = true).
  { apply (process_file_ok_iff json_loads c out log name lines lang_code sw ss).
    now exists st. }
  apply noise_kept_ok in Hok.
  apply (process_file_ok_iff json_loads c out log name _ lang_code sw ss) in Hok
    as (st' & H').
  exists st'. split; [exact H'|].
  destruct (process_file_full json_loads lang_code c out log name lines sw ss st H)
    as (Hc & Hw & Hs & Ht & Hcom & Hwid & Hsid & Hec).
  destruct (process_file_full json_loads lang_code c out log name _ sw ss st' H')
    as (Hc' & Hw' & Hs' & Ht' & Hcom' & Hwid' & Hsid' & Hec').
  rewrite noise_not_handed in Hc', Hw', Hs', Ht', Hwid', Hsid', Hec'.
  assert (Eec : entry_count st' = entry_count st) by congruence.
  repeat split.
  - apply connection_eq; congruence.
  - f_equal; [f_equal|]; congruence.
  - congruence.
Qed.

Lemma noise_lines_do_not_count_witness :
  let lines := [newline; cat_line; malformed_line; gato_line; empty_gloss_line] in
  let st :=
    run_state
      (process_file simple_json_loads (create_schema connect) [] [] "en.jsonl"
         lines "en" 1 1) (start_state connect [] [] 0 0) in
  exists st',
    process_file simple_json_loads (create_schema connect) [] [] "en.jsonl"
      (filter (fun l => negb (is_noise simple_json_loads "en" l)) lines)
      "en" 1 1 = Ok st'
    /\ conn st' = conn st
    /\ (word_id st', sense_id st', entry_count st')
       = (word_id st, sense_id st, entry_count st)
    /\ calls st' = calls st.
Proof.
  apply (noise_lines_do_not_count simple_json_loads (create_schema connect)
           [] [] "en.jsonl"
           [newline; cat_line; malformed_line; gato_line; empty_gloss_line]
           "en" 1 1).
  vm_compute; reflexivity.
Defined.

(** X14.  A file can be cut anywhere: processing its first part, then
    its second part from the connection and the cursors the first
    returned, gives the tables, the cursors and the calls of the
    extractor that the whole file gives, and the two entry counts add
    up to the count of the whole. *)
Theorem file_in_two_parts (json_loads : string -> option pyval)
    (c : connection) (out : list message) (log : list pyval)
    (name name1 name2 : string) (part1 part2 : list string) (lang_code : string)
    (sw ss : Z) (st : loop_state) :
  process_file json_loads c out log name (part1 ++ part2) lang_code sw ss
  = Ok st ->
  exists st1 st2,
    process_file json_loads c out log name1 part1 lang_code sw ss = Ok st1
    /\ process_file json_loads (conn st1) (stdout st1) (calls st1) name2 part2
         lang_code (word_id st1) (sense_id st1) = Ok st2
    /\ words (conn st2) = words (conn st)
    /\ senses (conn st2) = senses (conn st)
    /\ translations (conn st2) = translations (conn st)
    /\ (word_id st2, sense_id st2) = (word_id st, sense_id st)
    /\ entry_count st1 + entry_count st2 = entry_count st
    /\ calls st2 = calls st.
Proof.
  intros H.
  assert (Hok : forallb (line_ok json_loads lang_code) (part1 ++ part2) = true).
  { apply (process_file_ok_iff json_loads c out log name _ lang_code sw ss).
    now exists st. }
  rewrite forallb_app in Hok. apply andb_prop in Hok as (Hok1 & Hok2).
  apply (process_file_ok_iff json_loads c out log name1 _ lang_code sw ss) in Hok1
    as (st1 & H1).
  apply (process_file_ok_iff json_loads (conn st1) (stdout st1) (calls st1) name2
           _ lang_code (word_id st1) (sense_id st1)) in Hok2 as (st2 & H2).
  exists st1, st2. split; [exact H1|]. split; [exact H2|].
  destruct (process_file_full json_loads lang_code _ _ _ _ _ _ _ _ H)
    as (Hc & Hw & Hs & Ht & _ & Hwid & Hsid & Hec).
  destruct (process_file_full json_loads lang_code _ _ _ _ _ _ _ _ H1)
    as (Hc1 & Hw1 & Hs1 & Ht1 & _ & Hwid1 & Hsid1 & Hec1).
  destruct (process_file_full json_loads lang_code _ _ _ _ _ _ _ _ H2)
    as (Hc2 & Hw2 & Hs2 & Ht2 & _ & Hwid2 & Hsid2 & Hec2).
  rewrite handed_entries_app in Hc, Hw, Hs, Ht, Hwid, Hsid, Hec.
  pose proof (expected_app lang_code
                (handed_entries json_loads lang_code part1)
                (handed_entries json_loads lang_code part2) sw ss) as Happ.
  cbv zeta in Happ. rewrite <- Hwid1, <- Hsid1 in Happ.
  destruct Happ as (Ew & Es & Et).
  rewrite Ew in Hw, Hwid, Hec. rewrite Es in Hs, Hsid. rewrite Et in Ht.
  rewrite length_app, Nat2Z.inj_add in Hwid, Hsid, Hec.
  repeat split.
  - now rewrite Hw2, Hw1, Hw, app_assoc.
  - now rewrite Hs2, Hs1, Hs, app_assoc.
  - now rewrite Ht2, Ht1, Ht, app_assoc.
  - f_equal; lia.
  - lia.
  - now rewrite Hc2, Hc1, Hc, app_assoc.
Qed.

Lemma file_in_two_parts_witness :
  let st :=
    run_state
      (process_file simple_json_loads (create_schema connect) [] [] "en.jsonl"
         ([cat_line; malformed_line] ++ [empty_gloss_line; short_line])
         "en" 1 1) (start_state connect [] [] 0 0) in
  exists st1 st2,
    process_file simple_json_loads (create_schema connect) [] [] "a.jsonl"
      [cat_line; malformed_line] "en" 1 1 = Ok st1
    /\ process_file simple_json_loads (conn st1) (stdout st1) (calls st1)
         "b.jsonl" [empty_gloss_line; short_line] "en" (word_id st1)
         (sense_id st1) = Ok st2
    /\ words (conn st2) = words (conn st)
    /\ senses (conn st2) = senses (conn st)
    /\ translations (conn st2) = translations (conn st)
    /\ (word_id st2, sense_id st2) = (word_id st, sense_id st)
    /\ entry_count st1 + entry_count st2 = entry_count st
    /\ calls st2 = calls st.
Proof.
  apply (file_in_two_parts simple_json_loads (create_schema connect) [] []
           "en.jsonl" "a.jsonl" "b.jsonl" [cat_line; malformed_line]
           [empty_gloss_line; short_line] "en" 1 1).
  vm_compute; reflexivity.
Defined.

(** X1.  A record whose headword is missing or empty is rejected
    whatever its other fields hold, ill-typed ones included, since the
    headword is tested before any other field is read: its line adds no
    row, moves no cursor and does not end the run. *)
Theorem headword_required (json_loads : string -> option pyval)
    (lang_code : string) (st : loop_state) (line_num : Z) (line : string)
    (kv : list (string * pyval)) :
  json_loads (py_strip line) = Some (PDict kv) ->
  truthy (field_or "word" (PStr "") (PDict kv)) = false ->
  process_entry (PDict kv) lang_code = Ok None
  /\ exists st',
       loop_body json_loads lang_code st line_num line = Ok st'
       /\ conn st' = conn st
       /\ (words_batch st', senses_batch st', trans_batch st')
          = (words_batch st, senses_batch st, trans_batch st)
       /\ (word_id st', sense_id st', entry_count st')
          = (word_id st, sense_id st, entry_count st).
Proof.
  intros Hdec Hword.
  assert (Hrej : process_entry (PDict kv) lang_code = Ok None).
  { unfold process_entry. rewrite py_get_dict. cbn [bind]. now rewrite Hword. }
  split; [exact Hrej|].
  exact (loop_body_rejected json_loads lang_code st line_num line kv Hdec Hrej).
Qed.

Lemma headword_required_witness :
  let st := start_state (create_schema connect) [] [] 1 1 in
  process_entry
    (PDict [("lang_code", PStr "en"); ("senses", PInt 5);
            ("translations", PNone); ("etymology_texts", PInt 7)]) "en"
  = Ok None
  /\ exists st',
       loop_body simple_json_loads "en" st 1 headless_line = Ok st'
       /\ conn st' = conn st
       /\ (words_batch st', senses_batch st', trans_batch st')
          = (words_batch st, senses_batch st, trans_batch st)
       /\ (word_id st', sense_id st', entry_count st')
          = (word_id st, sense_id st, entry_count st).
Proof.
  apply (headword_required simple_json_loads "en"
           (start_state (create_schema connect) [] [] 1 1) 1 headless_line
           [("lang_code", PStr "en"); ("senses", PInt 5);
            ("translations", PNone); ("etymology_texts", PInt 7)]);
    vm_compute; reflexivity.
Defined.
(* ================================================================== *)
(** ** The database of a whole run *)

Lemma expected_words_columns (lang_code : string) (es : list pyval) :
  forall wid sid row,
    In row (expected_words lang_code es wid sid) ->
    word_row_lang row = lang_code /\ truthy (word_row_word row) = true.
Proof.
  induction es as [|e es IH]; intros wid sid row Hin; [contradiction|].
  destruct (process_entry e lang_code) as [[r|]|ex] eqn:He.
  - destruct (expected_accepted lang_code e es r wid sid He) as (Ew & _ & _).
    rewrite Ew in Hin. destruct Hin as [<- | Hin]; [|now apply IH in Hin].
    apply process_entry_accepted in He
      as (kv & si & ti & _ & _ & Ht & _). now split.
  - unfold expected_words in *. cbn [expected_rows] in Hin. rewrite He in Hin.
    now apply IH in Hin.
  - unfold expected_words in *. cbn [expected_rows] in Hin. rewrite He in Hin.
    now apply IH in Hin.
Qed.

(** A file processed from the cursors that follow the identifiers of a
    well-formed database leaves a well-formed database. *)
Lemma process_file_well_formed (json_loads : string -> option pyval)
    (c : connection) (out : list message) (log : list pyval) (name : string)
    (lines : list string) (lang_code : string) (st : loop_state) :
  lang_code = "en" \/ lang_code = "es" ->
  database_well_formed c ->
  process_file json_loads c out log name lines lang_code
    (1 + Z.of_nat (List.length (words c)))
    (1 + Z.of_nat (List.length (senses c))) = Ok st ->
  database_well_formed (conn st)
  /\ word_id st = 1 + Z.of_nat (List.length (words (conn st)))
  /\ sense_id st = 1 + Z.of_nat (List.length (senses (conn st)))
  /\ Z.of_nat (List.length (words (conn st)))
     = Z.of_nat (List.length (words c)) + entry_count st
  /\ exists new,
       words (conn st) = words c ++ new
       /\ forall w, In w new -> word_row_lang w = lang_code.
Proof.
  intros Hlang (Hwi & Hsi & Href & Hcol) H.
  apply process_file_rows in H as (es & _ & _ & Hw & Hs & Ht & Hwid & Hsid & Hec).
  set (sw := 1 + Z.of_nat (List.length (words c))) in *.
  set (ss := 1 + Z.of_nat (List.length (senses c))) in *.
  split; [|split; [|split; [|split]]].
  - unfold database_well_formed. rewrite Hw, Hs, Ht.
    rewrite !map_app, !length_app, !count_from_app, Hwi, Hsi.
    rewrite expected_words_consecutive, expected_senses_consecutive.
    split; [reflexivity|]. split; [reflexivity|]. split.
    + apply references_hold_app; [exact Href | apply expected_references].
    + intros w Hin. apply in_app_or in Hin as [Hin | Hin]; [now apply Hcol|].
      apply expected_words_columns in Hin as (-> & Htr). now split.
  - rewrite Hwid, Hw, length_app. unfold sw. lia.
  - rewrite Hsid, Hs, length_app. unfold ss. lia.
  - rewrite Hw, length_app, Hec. lia.
  - exists (expected_words lang_code es sw ss). split; [exact Hw|].
    intros w Hin. now apply expected_words_columns in Hin.
Qed.

Lemma fresh_database_well_formed : database_well_formed (create_schema connect).
Proof.
  unfold database_well_formed, references_hold. cbn.
  split; [reflexivity|]. split; [reflexivity|].
  split; [|intros w []].
  split; [|split]; intros x [].
Qed.

(** X15.  The database of a complete run of [main]: entry identifiers
    and definition identifiers each count from 1 without gap, every
    definition belongs to an entry, every entry has a definition, every
    cross-reference points to a definition, every entry has a non-empty
    headword, the entries of the English file come before those of the
    Spanish file, and [total_entries] is the number of entry rows. *)
Theorem main_database_well_formed (json_loads : string -> option pyval)
    (en es : option (string * list string)) (st : loop_state) (total : Z) :
  main json_loads en es = Ok (st, total) ->
  database_well_formed (conn st)
  /\ total = Z.of_nat (List.length (words (conn st)))
  /\ (word_id st, sense_id st)
     = (1 + total, 1 + Z.of_nat (List.length (senses (conn st))))
  /\ exists words_en words_es,
       words (conn st) = words_en ++ words_es
       /\ (forall w, In w words_en -> word_row_lang w = "en")
       /\ (forall w, In w words_es -> word_row_lang w = "es").
Proof.
  unfold main. intros H.
  apply bind_ok in H as ([st1 t1] & H1 & H).
  assert (S1 : database_well_formed (conn st1)
               /\ word_id st1 = 1 + Z.of_nat (List.length (words (conn st1)))
               /\ sense_id st1 = 1 + Z.of_nat (List.length (senses (conn st1)))
               /\ t1 = Z.of_nat (List.length (words (conn st1)))
               /\ forall w, In w (words (conn st1)) -> word_row_lang w = "en").
  { destruct en as [[name lines]|].
    - apply bind_ok in H1 as (st' & Hf & H1). injection H1 as <- <-.
      cbn in Hf.
      destruct (process_file_well_formed json_loads (create_schema connect)
                  [] [] name lines "en" st' (or_introl eq_refl)
                  fresh_database_well_formed Hf)
        as (Hwf & Hwid & Hsid & Hlen & new & Hnew & Hl).
      cbn in Hlen, Hnew.
      split; [exact Hwf|]. split; [exact Hwid|]. split; [exact Hsid|].
      split; [lia|]. rewrite Hnew. exact Hl.
    - injection H1 as <- <-. cbn.
      split; [exact fresh_database_well_formed|].
      split; [reflexivity|]. split; [reflexivity|]. split; [reflexivity|].
      intros w []. }
  destruct S1 as (Hwf1 & Hwid1 & Hsid1 & Ht1 & Hen).
  destruct es as [[name lines]|].
  - apply bind_ok in H as (st' & Hf & H). injection H as <- <-.
    rewrite Hwid1, Hsid1 in Hf.
    destruct (process_file_well_formed json_loads (conn st1) (stdout st1)
                (calls st1) name lines "es" st' (or_intror eq_refl) Hwf1 Hf)
      as (Hwf & Hwid & Hsid & Hlen & new & Hnew & Hl).
    split; [exact Hwf|]. split; [lia|]. split; [f_equal; lia|].
    exists (words (conn st1)), new.
    split; [exact Hnew|]. split; [exact Hen | exact Hl].
  - injection H as <- <-.
    split; [exact Hwf1|]. split; [lia|]. split; [f_equal; lia|].
    exists (words (conn st1)), []. rewrite app_nil_r.
    split; [reflexivity|]. split; [exact Hen | intros w []].
Qed.

Lemma main_database_well_formed_witness :
  let r :=
    main simple_json_loads
      (Some ("en.jsonl", [cat_line; gato_line; malformed_line; empty_gloss_line]))
      (Some ("es.jsonl", [gato_line; newline; cat_line])) in
  let st := run_state (r1 <- r ;; Ok (fst r1)) (start_state connect [] [] 0 0) in
  let total := 3 in
  database_well_formed (conn st)
  /\ total = Z.of_nat (List.length (words (conn st)))
  /\ (word_id st, sense_id st)
     = (1 + total, 1 + Z.of_nat (List.length (senses (conn st))))
  /\ exists words_en words_es,
       words (conn st) = words_en ++ words_es
       /\ (forall w, In w words_en -> word_row_lang w = "en")
       /\ (forall w, In w words_es -> word_row_lang w = "es").
Proof.
  apply (main_database_well_formed simple_json_loads
           (Some ("en.jsonl",
                  [cat_line; gato_line; malformed_line; empty_gloss_line]))
           (Some ("es.jsonl", [gato_line; newline; cat_line]))).
  vm_compute; reflexivity.
Defined.

(** X16.  The checks of [main] come before the database is touched:
    without any input path the run exits with status 2, with an input
    path that does not exist it exits with status 1, and in both cases
    the database at the output path is left as it was and no file is
    processed; a run that finishes writes a database that owes nothing
    to the one it replaced. *)
Theorem checks_come_before_the_database (json_loads : string -> option pyval)
    (inputs : list (string * (string * list string)))
    (existing : option connection) (en es : option string) :
  (en = None -> es = None ->
   run_main json_loads inputs existing en es = Exit 2 existing)
  /\ (forall p,
         en = Some p \/ es = Some p -> file_at p inputs = None ->
         run_main json_loads inputs existing en es = Exit 1 existing)
  /\ (forall db total,
         run_main json_loads inputs existing en es = Finished db total ->
         (en <> None \/ es <> None)
         /\ missing inputs en = false /\ missing inputs es = false
         /\ forall existing',
              run_main json_loads inputs existing' en es = Finished db total).
Proof.
  split; [|split].
  - intros -> ->. reflexivity.
  - intros p Hp Hnone. unfold run_main.
    destruct en as [pe|], es as [ps|]; cbn [missing].
    + destruct Hp as [Hp | Hp]; injection Hp as ->.
      * now rewrite Hnone.
      * rewrite Hnone. now destruct (file_at pe inputs).
    + destruct Hp as [Hp | Hp]; [|discriminate]. injection Hp as ->.
      now rewrite Hnone.
    + destruct Hp as [Hp | Hp]; [discriminate|]. injection Hp as ->.
      now rewrite Hnone.
    + destruct Hp; discriminate.
  - intros db total H. unfold run_main in *.
    assert (Hsome : en <> None \/ es <> None).
    { destruct en, es; try discriminate H; [left | left | right]; discriminate. }
    split; [exact Hsome|].
    destruct (missing inputs en) eqn:Me.
    { destruct en, es; discriminate H. }
    destruct (missing inputs es) eqn:Ms.
    { destruct en, es; discriminate H. }
    repeat split.
    intros existing'. destruct en, es; try exact H.
    destruct Hsome as [Hs | Hs]; contradiction.
Qed.

Lemma checks_come_before_the_database_witness :
  run_main simple_json_loads [("a.jsonl", ("a.jsonl", [cat_line]))]
    (Some (mkConn [(7, PStr "old", "en")] [] [] 1)) (Some "a.jsonl")
    (Some "b.jsonl")
  = Exit 1 (Some (mkConn [(7, PStr "old", "en")] [] [] 1)).
Proof.
  apply (proj1 (proj2 (checks_come_before_the_database simple_json_loads
                         [("a.jsonl", ("a.jsonl", [cat_line]))]
                         (Some (mkConn [(7, PStr "old", "en")] [] [] 1))
                         (Some "a.jsonl") (Some "b.jsonl"))) "b.jsonl").
  - now right.
  - reflexivity.
Defined.
(* ================================================================== *)
(** ** What is printed, what is not read *)

Lemma warnings_app (a b : list message) :
  warnings (a ++ b) = warnings a ++ warnings b.
Proof. apply flat_map_app. Qed.

Lemma add_entry_stdout (lang_code : string) (r : extracted) (st : loop_state) :
  exists m,
    stdout (add_entry lang_code r st) = stdout st ++ m /\ warnings m = [].
Proof.
  unfold add_entry. rewrite add_senses_spec.
  destruct ((entry_count st + 1) mod BATCH_SIZE =? 0).
  - eexists. cbn -[flush_batches]. split; reflexivity.
  - exists []. cbn. now rewrite app_nil_r.
Qed.

Lemma loop_body_stdout (json_loads : string -> option pyval)
    (lang_code : string) (st st' : loop_state) (n : Z) (line : string) :
  loop_body json_loads lang_code st n line = Ok st' ->
  exists m,
    stdout st' = stdout st ++ m
    /\ warnings m = undecodable_lines json_loads [line] n.
Proof.
  unfold loop_body. cbn [undecodable_lines].
  destruct (py_strip line =? "")%string.
  { intros H. injection H as <-. exists []. now rewrite app_nil_r. }
  destruct (json_loads (py_strip line)) as [entry|].
  2:{ intros H. injection H as <-. exists [MsgWarning n]. now split. }
  intros H. apply bind_ok in H as (entry_lang & _ & H).
  destruct (py_eq_str entry_lang lang_code); cbn [negb] in H.
  2:{ injection H as <-. exists []. now rewrite app_nil_r. }
  apply bind_ok in H as (res & _ & H).
  destruct res as [r|]; injection H as <-.
  - destruct (add_entry_stdout lang_code r (log_call entry st)) as (m & Hm & Hw).
    exists m. now split.
  - exists []. cbn. now rewrite app_nil_r.
Qed.

Lemma run_lines_stdout (json_loads : string -> option pyval)
    (lang_code : string) (lines : list string) :
  forall n st st',
    run_lines json_loads lang_code lines n st = Ok st' ->
    exists m,
      stdout st' = stdout st ++ m
      /\ warnings m = undecodable_lines json_loads lines n.
Proof.
  induction lines as [|line rest IH]; intros n st st' H; cbn [run_lines] in H.
  - injection H as <-. exists []. now rewrite app_nil_r.
  - apply bind_ok in H as (st1 & H1 & H).
    apply loop_body_stdout in H1 as (m1 & Hm1 & Hw1).
    apply IH in H as (m2 & Hm2 & Hw2).
    exists (m1 ++ m2). split.
    + now rewrite Hm2, Hm1, app_assoc.
    + rewrite warnings_app, Hw1, Hw2. cbn [undecodable_lines].
      destruct (py_strip line =? "")%string; [reflexivity|].
      destruct (json_loads (py_strip line)); reflexivity.
Qed.

(** X17.  What a completed file prints: after what was printed before,
    the announcement of the file, then the messages of the loop, whose
    warnings are exactly the numbers of the non-blank lines that do not
    decode, in order and counted from 1 with the blank lines, then the
    entry count returned. *)
Theorem warnings_name_the_undecodable_lines
    (json_loads : string -> option pyval)
    (c : connection) (out : list message) (log : list pyval) (name : string)
    (lines : list string) (lang_code : string) (sw ss : Z) (st : loop_state) :
  process_file json_loads c out log name lines lang_code sw ss = Ok st ->
  exists middle,
    stdout st
    = out ++ MsgProcessing name lang_code :: middle
          ++ [MsgCompleted (entry_count st)]
    /\ warnings middle = undecodable_lines json_loads lines 1.
Proof.
  intros H. apply process_file_inv in H as (st1 & Hrun & ->).
  apply run_lines_stdout in Hrun as (m & Hm & Hw).
  destruct (final_flush_spec st1) as (_ & _ & _ & _ & _ & Fec & _ & Fout).
  exists m. split; [|exact Hw].
  cbn [print stdout entry_count]. rewrite Fout, Hm, Fec. cbn [print stdout].
  rewrite <- !app_assoc. reflexivity.
Qed.

Lemma warnings_name_the_undecodable_lines_witness :
  let lines := [malformed_line; newline; cat_line; malformed_line] in
  let st :=
    run_state
      (process_file simple_json_loads (create_schema connect) [] [] "en.jsonl"
         lines "en" 1 1) (start_state connect [] [] 0 0) in
  exists middle,
    stdout st
    = [] ++ MsgProcessing "en.jsonl" "en" :: middle
         ++ [MsgCompleted (entry_count st)]
    /\ warnings middle = undecodable_lines simple_json_loads lines 1.
Proof.
  apply (warnings_name_the_undecodable_lines simple_json_loads
           (create_schema connect) [] [] "en.jsonl"
           [malformed_line; newline; cat_line; malformed_line] "en" 1 1).
  vm_compute; reflexivity.
Defined.

Lemma lookup_other_key (k k' : string) (v : pyval)
    (before rest : list (string * pyval)) :
  k <> k' ->
  lookup k' (before ++ (k, v) :: rest) = lookup k' (before ++ rest).
Proof.
  intros Hne. induction before as [|[k0 v0] before IH]; cbn [app lookup].
  - apply String.eqb_neq in Hne. now rewrite Hne.
  - now rewrite IH.
Qed.

(** X18.  The extractor reads six keys of a record and no other: a
    field under any other key, wherever it stands in the record and
    whatever its value, changes neither the result nor the exception. *)
Theorem other_fields_are_ignored (k : string) (v : pyval)
    (before rest : list (string * pyval)) (lang_code : string) :
  ~ In k keys_read ->
  process_entry (PDict (before ++ (k, v) :: rest)) lang_code
  = process_entry (PDict (before ++ rest)) lang_code.
Proof.
  intros Hk.
  assert (Hl : forall k', In k' keys_read ->
                          lookup k' (before ++ (k, v) :: rest)
                          = lookup k' (before ++ rest)).
  { intros k' Hin. apply lookup_other_key. intros ->. contradiction. }
  unfold process_entry, resolve_etymology, py_get, py_in, py_getitem.
  rewrite (Hl "word"), (Hl "pos"), (Hl "etymology_text"),
    (Hl "etymology_texts"), (Hl "senses"), (Hl "translations");
    try reflexivity; unfold keys_read; cbn; tauto.
Qed.

Lemma other_fields_are_ignored_witness :
  process_entry
    (PDict ([("word", PStr "cat")] ++ ("forms", PInt 3) :: [("senses", PInt 5)]))
    "en"
  = process_entry (PDict ([("word", PStr "cat")] ++ [("senses", PInt 5)])) "en".
Proof.
  apply (other_fields_are_ignored "forms" (PInt 3) [("word", PStr "cat")]
           [("senses", PInt 5)] "en").
  unfold keys_read. cbn. intros H.
  repeat (destruct H as [H | H]; [discriminate H|]). exact H.
Defined.

(* ================================================================== *)
(** ** Glosses of the rows, record by record *)

Lemma expected_senses_groups (lang_code : string) (es : list pyval) :
  forall wid sid,
    expected_senses lang_code es wid sid
    = List.concat (map snd (sense_groups lang_code es wid sid)).
Proof.
  induction es as [|e es IH]; intros wid sid; [reflexivity|].
  destruct (process_entry e lang_code) as [[r|]|ex] eqn:He.
  - destruct (expected_accepted lang_code e es r wid sid He) as (_ & -> & _).
    cbn [sense_groups]. rewrite He. cbn [map snd List.concat]. now rewrite IH.
  - unfold expected_senses in *. cbn [expected_rows sense_groups].
    rewrite He. apply IH.
  - unfold expected_senses in *. cbn [expected_rows sense_groups].
    rewrite He. apply IH.
Qed.

Lemma sense_groups_records (lang_code : string) (es : list pyval) :
  forall wid sid,
    map fst (sense_groups lang_code es wid sid) = filter (accepted lang_code) es.
Proof.
  induction es as [|e es IH]; intros wid sid; [reflexivity|].
  cbn [sense_groups filter]. unfold accepted at 1.
  destruct (process_entry e lang_code) as [[r|]|ex]; cbn [map fst];
    now rewrite IH.
Qed.

Lemma sense_groups_rows (lang_code : string) (es : list pyval) :
  forall wid sid e rows,
    In (e, rows) (sense_groups lang_code es wid sid) ->
    exists r wid' sid',
      process_entry e lang_code = Ok (Some r)
      /\ rows = entry_sense_rows r wid' sid'
      /\ In (wid', ex_word r, lang_code) (expected_words lang_code es wid sid).
Proof.
  induction es as [|e0 es IH]; intros wid sid e rows Hin; [contradiction|].
  cbn [sense_groups] in Hin.
  destruct (process_entry e0 lang_code) as [[r0|]|ex] eqn:He.
  - destruct (expected_accepted lang_code e0 es r0 wid sid He) as (-> & _ & _).
    destruct Hin as [Heq | Hin].
    + injection Heq as <- <-. exists r0, wid, sid.
      split; [exact He|]. split; [reflexivity | now left].
    + apply IH in Hin as (r & wid' & sid' & Hacc & Hrows & Hw).
      exists r, wid', sid'. split; [exact Hacc|]. split; [exact Hrows | now right].
  - unfold expected_words. cbn [expected_rows]. rewrite He. now apply IH.
  - unfold expected_words. cbn [expected_rows]. rewrite He. now apply IH.
Qed.

(** C2, as the code has it.  The definition rows a completed file adds
    come record by record, in the order of the records of the file the
    extractor accepts; the rows of a record all belong to the entry row
    of that record and carry, in order, the first glosses of the senses
    of that record that have a gloss: the gloss of a row is the first
    element of a non-empty gloss list of a sense of the row's own
    record.  It is handed to the database unchanged, whatever it is; it
    can be the empty string. *)
Theorem stored_gloss_heads_a_gloss_list (json_loads : string -> option pyval)
    (c : connection) (out : list message) (log : list pyval) (name : string)
    (lines : list string) (lang_code : string) (sw ss : Z) (st : loop_state) :
  process_file json_loads c out log name lines lang_code sw ss = Ok st ->
  exists groups : list (pyval * list sense_row),
    senses (conn st) = senses c ++ List.concat (map snd groups)
    /\ map fst groups
       = filter (accepted lang_code) (handed_entries json_loads lang_code lines)
    /\ forall entry rows,
         In (entry, rows) groups ->
         exists l wid,
           field "senses" entry = Some (PList l)
           /\ map sense_row_gloss rows = flat_map first_gloss l
           /\ (forall row, In row rows ->
                 sense_row_word_id row = wid
                 /\ exists sense more,
                      In sense l
                      /\ glosses_of sense = sense_row_gloss row :: more)
           /\ exists new_words,
                words (conn st) = words c ++ new_words
                /\ In (wid, field_or "word" (PStr "") entry, lang_code) new_words.
Proof.
  intros H.
  destruct (process_file_full json_loads lang_code c out log name lines sw ss st H)
    as (_ & Hw & Hs & _).
  set (es := handed_entries json_loads lang_code lines) in *.
  exists (sense_groups lang_code es sw ss).
  split; [now rewrite Hs, expected_senses_groups|].
  split; [apply sense_groups_records|].
  intros entry rows Hin.
  apply sense_groups_rows in Hin as (r & wid & sid & Hacc & -> & Hword).
  pose proof (accepted_senses _ _ _ Hacc) as (l & Hf & _ & Hgl).
  pose proof (process_entry_accepted _ _ _ Hacc) as (kv & si & ti & _ & Hwr & _).
  exists l, wid. split; [exact Hf|].
  assert (Hmap : map sense_row_gloss (entry_sense_rows r wid sid)
                 = flat_map first_gloss l).
  { unfold entry_sense_rows. now rewrite sense_rows_glosses. }
  split; [exact Hmap|]. split.
  - intros row Hrow. split.
    + unfold entry_sense_rows in Hrow. now apply sense_rows_columns in Hrow.
    + assert (Hg : In (sense_row_gloss row) (flat_map first_gloss l)).
      { rewrite <- Hmap. now apply in_map. }
      apply in_flat_map in Hg as (sense & Hsense & Hfirst).
      unfold first_gloss in Hfirst.
      destruct (glosses_of sense) as [|g more] eqn:Hgs; [contradiction|].
      cbn in Hfirst. destruct Hfirst as [<- | []].
      exists sense, more. now split.
  - exists (expected_words lang_code es sw ss). split; [exact Hw|].
    now rewrite <- Hwr.
Qed.

Lemma stored_gloss_heads_a_gloss_list_witness :
  let lines := [cat_line; malformed_line; empty_gloss_line; two_senses_line] in
  let st :=
    run_state
      (process_file simple_json_loads (create_schema connect) [] [] "en.jsonl"
         lines "en" 1 1) (start_state connect [] [] 0 0) in
  exists groups : list (pyval * list sense_row),
    senses (conn st) = senses (create_schema connect) ++ List.concat (map snd groups)
    /\ map fst groups
       = filter (accepted "en") (handed_entries simple_json_loads "en" lines)
    /\ forall entry rows,
         In (entry, rows) groups ->
         exists l wid,
           field "senses" entry = Some (PList l)
           /\ map sense_row_gloss rows = flat_map first_gloss l
           /\ (forall row, In row rows ->
                 sense_row_word_id row = wid
                 /\ exists sense more,
                      In sense l
                      /\ glosses_of sense = sense_row_gloss row :: more)
           /\ exists new_words,
                words (conn st) = words (create_schema connect) ++ new_words
                /\ In (wid, field_or "word" (PStr "") entry, "en") new_words.
Proof.
  apply (stored_gloss_heads_a_gloss_list simple_json_loads
           (create_schema connect) [] [] "en.jsonl"
           [cat_line; malformed_line; empty_gloss_line; two_senses_line]
           "en" 1 1).
  vm_compute; reflexivity.
Defined.

(** C2 as stated fails: a record whose sense has the empty string for
    first gloss is accepted, and the definition row stored for it has an
    empty gloss. *)
Lemma empty_gloss_is_stored :
  exists st row,
    process_file simple_json_loads (create_schema connect) [] [] "en.jsonl"
      [empty_gloss_line] "en" 1 1 = Ok st
    /\ In row (senses (conn st))
    /\ sense_row_gloss row = PStr "".
Proof.
  eexists. exists (1, 1, PStr "", PStr "", PNone).
  split; [vm_compute; reflexivity|].
  split; [now left | reflexivity].
Qed.
